(** * VMware Fusion MCP server: tool dispatcher and REST client

    A shallow embedding of [vmware_fusion_mcp/vmware_client.py] and
    [vmware_fusion_mcp/server.py].

    - Parsed JSON (what [response.json()] returns, and the [arguments]
      mapping of a tool call) is the inductive type [json]; a Python [dict]
      is an association list in insertion order, looked up by first match.
    - Python exceptions are values of [exn]; a coroutine that may raise and
      that mutates the client or the module-level global is a function in
      the state-and-exception monad [M].
    - The [httpx.AsyncClient] and the remote REST API are the environment:
      the client is its three-valued life-cycle state, the remote API is a
      function from requests to outcomes, and every request put on the wire
      is appended to a log. *)

From Stdlib Require Import String Ascii List ZArith Bool Lia DecimalString.
Import ListNotations.
Local Open Scope list_scope.
Local Open Scope string_scope.

Set Implicit Arguments.

(** ** Parsed JSON values *)

(** A [float] is kept as the text Python's [repr] prints for it, which is
    all that the formatting code observes of it. *)
#[warnings="-register-all"]
Inductive json : Type :=
| JNull
| JBool (b : bool)
| JInt (n : Z)
| JFloat (repr : string)
| JStr (s : string)
| JList (xs : list json)
| JDict (kvs : list (string * json)).

(** A Python [dict] with string keys. *)
Definition pydict : Type := list (string * json).

(** ** Python built-ins used by the source *)

Module Py.

Definition nl : string := String (ascii_of_nat 10) EmptyString.

(** [s * n] on strings. *)
Fixpoint str_mul (s : string) (n : nat) : string :=
  match n with
  | O => ""
  | S k => s ++ str_mul s k
  end.

(** [sep.join(parts)]. *)
Definition join (sep : string) (parts : list string) : string :=
  String.concat sep parts.

(** [str(n)] for an [int]. *)
Definition str_int (n : Z) : string :=
  NilZero.string_of_int (Z.to_int n).

(** [d.get(key)]: [None] stands for Python's [None] default. *)
Fixpoint dict_get (d : pydict) (key : string) : option json :=
  match d with
  | [] => None
  | (k, v) :: rest => if String.eqb k key then Some v else dict_get rest key
  end.

(** [d.get(key, default)]. *)
Definition dict_get_default (d : pydict) (key : string) (default : json) : json :=
  match dict_get d key with
  | Some v => v
  | None => default
  end.

(** [type(v).__name__]. *)
Definition type_name (v : json) : string :=
  match v with
  | JNull => "NoneType"
  | JBool _ => "bool"
  | JInt _ => "int"
  | JFloat _ => "float"
  | JStr _ => "str"
  | JList _ => "list"
  | JDict _ => "dict"
  end.

(** [bool(v)]: the truth value tested by [if v] and [if not v]. *)
Definition truthy (v : json) : bool :=
  match v with
  | JNull => false
  | JBool b => b
  | JInt n => negb (Z.eqb n 0)
  | JFloat r => negb (String.eqb r "0.0" || String.eqb r "-0.0")
  | JStr s => negb (String.eqb s "")
  | JList xs => match xs with [] => false | _ => true end
  | JDict kvs => match kvs with [] => false | _ => true end
  end.

(** *** [repr] of a [str] *)

Fixpoint contains_char (c : ascii) (s : string) : bool :=
  match s with
  | EmptyString => false
  | String a rest => Ascii.eqb a c || contains_char c rest
  end.

Definition hex_digit (n : nat) : ascii :=
  match n with
  | 0 => "0" | 1 => "1" | 2 => "2" | 3 => "3" | 4 => "4" | 5 => "5"
  | 6 => "6" | 7 => "7" | 8 => "8" | 9 => "9" | 10 => "a" | 11 => "b"
  | 12 => "c" | 13 => "d" | 14 => "e" | _ => "f"
  end%char.

Definition backslash : ascii := ascii_of_nat 92.
Definition squote : ascii := ascii_of_nat 39.
Definition dquote : ascii := ascii_of_nat 34.

(** One character of a [repr]: the quote and the backslash are escaped,
    control characters are written as escapes. This is Python's [repr] on
    ASCII text. Bytes from 128 up (the UTF-8 encoding of non-ASCII text) are
    kept as they are, which is what Python does for printable non-ASCII
    characters only: it escapes the others, so on text that holds them the
    model is not Python's [repr] (see [is_ascii]). *)
Definition repr_char (quote c : ascii) : string :=
  let n := nat_of_ascii c in
  if Ascii.eqb c backslash || Ascii.eqb c quote then
    String backslash (String c EmptyString)
  else if Nat.eqb n 9 then String backslash "t"
  else if Nat.eqb n 10 then String backslash "n"
  else if Nat.eqb n 13 then String backslash "r"
  else if Nat.ltb n 32 || Nat.eqb n 127 then
    String backslash
      (String "x" (String (hex_digit (Nat.div n 16))
                     (String (hex_digit (Nat.modulo n 16)) EmptyString)))
  else String c EmptyString.

Fixpoint repr_chars (quote : ascii) (s : string) : string :=
  match s with
  | EmptyString => ""
  | String c rest => repr_char quote c ++ repr_chars quote rest
  end.

(** Single quotes, unless the text has a single quote and no double one. *)
Definition repr_str (s : string) : string :=
  let quote :=
    if contains_char squote s && negb (contains_char dquote s)
    then dquote else squote in
  String quote (repr_chars quote s ++ String quote EmptyString).

(** [repr(v)]. *)
Fixpoint repr (v : json) : string :=
  match v with
  | JNull => "None"
  | JBool true => "True"
  | JBool false => "False"
  | JInt n => str_int n
  | JFloat r => r
  | JStr s => repr_str s
  | JList xs => "[" ++ join ", " (map repr xs) ++ "]"
  | JDict kvs =>
      "{" ++ join ", "
               (map (fun kv => match kv with
                               | (k, x) => repr_str k ++ ": " ++ repr x
                               end) kvs)
          ++ "}"
  end.

(** [str(v)], which is what an f-string field [{v}] prints. *)
Definition str (v : json) : string :=
  match v with
  | JStr s => s
  | _ => repr v
  end.

(** [repr] of a list of [str], as an f-string prints [valid_actions]. *)
Definition repr_str_list (xs : list string) : string :=
  repr (JList (map JStr xs)).

(** *** [str.title()] on ASCII letters *)

Definition is_lower (c : ascii) : bool :=
  let n := nat_of_ascii c in Nat.leb 97 n && Nat.leb n 122.
Definition is_upper (c : ascii) : bool :=
  let n := nat_of_ascii c in Nat.leb 65 n && Nat.leb n 90.
Definition to_upper (c : ascii) : ascii :=
  if is_lower c then ascii_of_nat (nat_of_ascii c - 32) else c.
Definition to_lower (c : ascii) : ascii :=
  if is_upper c then ascii_of_nat (nat_of_ascii c + 32) else c.

(** A letter that follows a letter is lowered, any other letter is raised;
    [prev_cased] is whether the previous character was a letter. Letters are
    the ASCII letters: this is Python's [title] on ASCII text, and not on
    text with non-ASCII letters, which Python cases too (see [is_ascii]). *)
Fixpoint title_from (prev_cased : bool) (s : string) : string :=
  match s with
  | EmptyString => ""
  | String c rest =>
      if is_lower c || is_upper c then
        String (if prev_cased then to_lower c else to_upper c)
               (title_from true rest)
      else String c (title_from false rest)
  end.

Definition title (s : string) : string := title_from false s.

(** [lines.append(x)]. *)
Definition append {A : Type} (lines : list A) (x : A) : list A :=
  (lines ++ [x])%list.

(** [x in xs] for a list of [str]. *)
Fixpoint str_in (x : string) (xs : list string) : bool :=
  match xs with
  | [] => false
  | y :: rest => String.eqb x y || str_in x rest
  end.

(** [s.rstrip("/")]: the text without its trailing slashes. *)
Fixpoint rstrip_slash (s : string) : string :=
  match s with
  | EmptyString => ""
  | String c rest =>
      match rstrip_slash rest with
      | EmptyString => if Ascii.eqb c "/" then "" else String c EmptyString
      | r => String c r
      end
  end.

End Py.

(** ** Exceptions and the state-and-exception monad *)

Module httpx.

(** The result of decoding a response body as JSON. *)
Inductive decoded : Type :=
| Malformed (msg : string)
| Decoded (v : json).

(** An HTTP response: [status_code], the body as [text] (the body bytes
    [content] are empty exactly when [text] is), and what [json()] makes
    of the body. *)
Record Response : Type := {
  status_code : Z;
  text : string;
  body : decoded
}.

Inductive verb : Type := GET | POST.

Record Request : Type := {
  method : verb;
  url : string
}.

(** What the remote end does with a request: the transport fails, or a
    response comes back. *)
Inductive reply : Type :=
| TransportFailure (msg : string)
| Responded (r : Response).

Inductive ClientState : Type := UNOPENED | OPENED | CLOSED.

(** An [httpx.AsyncClient]: its life-cycle state, and the requests it has
    put on the wire, oldest first. *)
Record AsyncClient : Type := {
  state : ClientState;
  calls : list Request
}.

End httpx.

(** The built-in and library exception classes the program can raise; an
    exception carries the class it was raised with, and [exn_isinstance]
    below gives Python's class hierarchy over them. [Exception_] is a bare
    [Exception]. *)
Inductive exn_class : Type :=
| Exception_
| ValueError
| RuntimeError
| AttributeError
| TypeError
| KeyError
| JSONDecodeError
| ValidationError.

(** [issubclass(cls, base)]: [JSONDecodeError] derives from [ValueError],
    [KeyError] from [LookupError] (not among the classes here), pydantic's
    [ValidationError] from [ValueError], and every class from
    [Exception]. *)
Definition issubclass (cls base : exn_class) : bool :=
  match base, cls with
  | Exception_, _ => true
  | ValueError, (ValueError | JSONDecodeError | ValidationError) => true
  | RuntimeError, RuntimeError => true
  | AttributeError, AttributeError => true
  | TypeError, TypeError => true
  | KeyError, KeyError => true
  | JSONDecodeError, JSONDecodeError => true
  | ValidationError, ValidationError => true
  | _, _ => false
  end.

(** A raised exception. All classes of [exn_class] and both httpx classes
    derive from [Exception]. *)
Inductive exn : Type :=
| PyExc (cls : exn_class) (msg : string)
| RequestError (msg : string)
| HTTPStatusError (r : httpx.Response).

(** [isinstance(e, base)] for a built-in class [base]. *)
Definition exn_isinstance (e : exn) (base : exn_class) : bool :=
  match e with
  | PyExc cls _ => issubclass cls base
  | RequestError _ | HTTPStatusError _ =>
      match base with
      | Exception_ => true
      | _ => false
      end
  end.

(** [str(e)]. The text httpx gives an [HTTPStatusError] is left out: every
    call site of the source replaces that exception before it is printed
    (see [list_vms_raises_PyExc] and its siblings). *)
Definition exn_str (e : exn) : string :=
  match e with
  | PyExc _ msg => msg
  | RequestError msg => msg
  | HTTPStatusError _ => ""
  end.

Inductive outcome (A : Type) : Type :=
| Return (a : A)
| Raise (e : exn).
Arguments Return {A} a.
Arguments Raise {A} e.

(** A computation over a mutable state [S] that returns or raises. *)
Definition M (S A : Type) : Type := S -> outcome A * S.

Definition ret {S A : Type} (a : A) : M S A := fun s => (Return a, s).

Definition raise {S A : Type} (e : exn) : M S A := fun s => (Raise e, s).

Definition bind {S A B : Type} (c : M S A) (k : A -> M S B) : M S B :=
  fun s =>
    match c s with
    | (Return a, s') => k a s'
    | (Raise e, s') => (Raise e, s')
    end.

(** [try: c  except ...: handler]; a [None] from [handler] is an exception
    that no [except] clause matches, which keeps propagating. *)
Definition try_except {S A : Type} (c : M S A) (handler : exn -> option (M S A)) : M S A :=
  fun s =>
    match c s with
    | (Return a, s') => (Return a, s')
    | (Raise e, s') =>
        match handler e with
        | Some h => h s'
        | None => (Raise e, s')
        end
    end.

Declare Scope monad_scope.
Delimit Scope monad_scope with monad.
Notation "x <- c ;; k" := (bind c (fun x => k))
  (at level 61, c at next level, right associativity) : monad_scope.
Notation "c ;;; k" := (bind c (fun _ => k))
  (at level 61, right associativity) : monad_scope.
Local Open Scope monad_scope.

(** ** The pydantic parameter models of [server.py] *)

Module pydantic.

Inductive violation : Type :=
| missing
| string_type.

Definition violation_text (v : violation) : string :=
  match v with
  | missing => "Field required"
  | string_type => "Input should be a valid string"
  end.

(** A required field declared [name: str]: present and a [str], else a
    violation. No coercion from other types, and the empty text is a
    [str] like any other. *)
Definition str_field (arguments : pydict) (name : string) : string + (string * violation) :=
  match Py.dict_get arguments name with
  | None => inr (name, missing)
  | Some (JStr s) => inl s
  | Some _ => inr (name, string_type)
  end.

(** The frame of [str(e)] of a [ValidationError]: the count line, then for
    every failing field its name and, indented, what is wrong with it.
    pydantic goes on after each entry with a bracketed echo of the error
    type and the input and with a line that links its documentation (whose
    text depends on the installed version); these are left out, so this is
    a skeleton of the printed text: its first line and the two lines that
    open each entry are pydantic's, the full text is not. *)
Definition error_text (model : string) (errors : list (string * violation)) : string :=
  Py.str_int (Z.of_nat (length errors))
  ++ (if Nat.eqb (length errors) 1 then " validation error for " else " validation errors for ")
  ++ model
  ++ String.concat ""
       (map (fun fv => Py.nl ++ fst fv ++ Py.nl ++ "  " ++ violation_text (snd fv)) errors).

Definition validation_error (model : string) (errors : list (string * violation)) : exn :=
  PyExc ValidationError (error_text model errors).

End pydantic.

Module GetVMInfoParams.

Record t : Type := { vm_id : string }.

(** The model built from the unpacked [arguments]; keys that are no field
    of the model are ignored (pydantic's default). *)
Definition init {S : Type} (arguments : pydict) : M S t :=
  match pydantic.str_field arguments "vm_id" with
  | inl v => ret {| vm_id := v |}
  | inr err => raise (pydantic.validation_error "GetVMInfoParams" [err])
  end.

End GetVMInfoParams.

Module PowerVMParams.

Record t : Type := { vm_id : string; action : string }.

(** The model built from the unpacked [arguments]: both fields are checked
    and every failure is reported, in declaration order. *)
Definition init {S : Type} (arguments : pydict) : M S t :=
  match pydantic.str_field arguments "vm_id", pydantic.str_field arguments "action" with
  | inl v, inl a => ret {| vm_id := v; action := a |}
  | inr e1, inl _ => raise (pydantic.validation_error "PowerVMParams" [e1])
  | inl _, inr e2 => raise (pydantic.validation_error "PowerVMParams" [e2])
  | inr e1, inr e2 => raise (pydantic.validation_error "PowerVMParams" [e1; e2])
  end.

End PowerVMParams.

Module mcp.

Record TextContent : Type := {
  type : string;
  text : string
}.

(** [structuredContent] (a [dict] or [None]) and [isError] default to
    [None] and [False]. *)
Record CallToolResult : Type := {
  content : list TextContent;
  structuredContent : option json;
  isError : bool
}.

Record Tool : Type := {
  name : string;
  description : string;
  inputSchema : json
}.

End mcp.

(** ** Methods of Python values that may raise *)

Definition attribute_error {S A : Type} (v : json) (attr : string) : M S A :=
  raise (PyExc AttributeError
           ("'" ++ Py.type_name v ++ "' object has no attribute '" ++ attr ++ "'")).

(** [v.get(key, default)]; only a [dict] has the method. *)
Definition method_get {S : Type} (v : json) (key : string) (default : json) : M S json :=
  match v with
  | JDict d => ret (Py.dict_get_default d key default)
  | _ => attribute_error v "get"
  end.

(** [v.items()]; only a [dict] has the method. *)
Definition method_items {S : Type} (v : json) : M S pydict :=
  match v with
  | JDict d => ret d
  | _ => attribute_error v "items"
  end.

(** [v[key]] on a [dict]. The source subscripts a value only after
    [v.get(key)] has returned on it, so [v] is a [dict] there. *)
Definition getitem {S : Type} (v : json) (key : string) : M S json :=
  match v with
  | JDict d =>
      match Py.dict_get d key with
      | Some x => ret x
      | None => raise (PyExc KeyError (Py.repr_str key))
      end
  | _ => raise (PyExc TypeError ("'" ++ Py.type_name v ++ "' object is not subscriptable"))
  end.

Fixpoint chars (s : string) : list json :=
  match s with
  | EmptyString => []
  | String c rest => JStr (String c EmptyString) :: chars rest
  end.

(** What [for x in v] runs over: the elements of a [list], the keys of a
    [dict], the characters of a [str]; nothing else is iterable. *)
Definition iter {S : Type} (v : json) : M S (list json) :=
  match v with
  | JList xs => ret xs
  | JDict d => ret (map (fun kv => JStr (fst kv)) d)
  | JStr s => ret (chars s)
  | _ => raise (PyExc TypeError ("'" ++ Py.type_name v ++ "' object is not iterable"))
  end.

(** ** [vmware_client.py] *)

Record VMwareClient : Type := {
  base_url : string;
  username : string;
  password : string;
  _client : httpx.AsyncClient
}.

(** [VMwareClient.__init__]. *)
Definition VMwareClient_init (base_url username password : string) : VMwareClient :=
  {| base_url := Py.rstrip_slash base_url;
     username := username;
     password := password;
     _client := {| httpx.state := httpx.UNOPENED; httpx.calls := [] |} |}.

(** [VMwareClient()], with the default arguments of [__init__]. *)
Definition VMwareClient_default : VMwareClient :=
  VMwareClient_init "http://localhost:8697" "" "".

Definition valid_actions : list string :=
  ["on"; "off"; "suspend"; "pause"; "unpause"; "reset"].

(** [self._client.<op>] run on the client held by [self]. *)
Definition on_client {A : Type} (op : M httpx.AsyncClient A) : M VMwareClient A :=
  fun self =>
    let (r, c) := op (_client self) in
    (r, {| base_url := base_url self; username := username self;
           password := password self; _client := c |}).

Definition get_self : M VMwareClient VMwareClient := fun self => (Return self, self).

Section Program.

(** The remote REST API: its answer to a request, given the requests the
    client has sent before. *)
Variable remote : list httpx.Request -> httpx.Request -> httpx.reply.

(** *** The parts of httpx the source calls *)

(** [AsyncClient.send]: a closed client refuses; otherwise the client is
    open from now on and the request goes on the wire. httpx builds the
    request before it gets here, by parsing the URL: it refuses some URLs
    with [InvalidURL] (before a closed client is noticed, and with nothing
    sent) and rewrites others (case of the host, default port, dot segments,
    percent-encoding, fragment). Neither is modelled: a request stands for
    one whose URL httpx sends as it is written, which [sendable_as_is]
    recognises, and the statements about which URL goes out, or about what
    a closed client raises, carry that condition. *)
Definition send (request : httpx.Request) : M httpx.AsyncClient httpx.Response :=
  fun c =>
    match httpx.state c with
    | httpx.CLOSED =>
        (Raise (PyExc RuntimeError "Cannot send a request, as the client has been closed."), c)
    | _ =>
        let c' := {| httpx.state := httpx.OPENED;
                     httpx.calls := (httpx.calls c ++ [request])%list |} in
        match remote (httpx.calls c) request with
        | httpx.TransportFailure msg => (Raise (RequestError msg), c')
        | httpx.Responded r => (Return r, c')
        end
    end.

Definition AsyncClient_get (url : string) : M httpx.AsyncClient httpx.Response :=
  send {| httpx.method := httpx.GET; httpx.url := url |}.

Definition AsyncClient_post (url : string) : M httpx.AsyncClient httpx.Response :=
  send {| httpx.method := httpx.POST; httpx.url := url |}.

(** [AsyncClient.aclose]. *)
Definition aclose : M httpx.AsyncClient unit :=
  fun c => (Return tt, {| httpx.state := httpx.CLOSED; httpx.calls := httpx.calls c |}).

(** [Response.raise_for_status]: every status outside 200..299 raises. *)
Definition raise_for_status {S : Type} (response : httpx.Response) : M S unit :=
  if (200 <=? httpx.status_code response)%Z && (httpx.status_code response <=? 299)%Z
  then ret tt
  else raise (HTTPStatusError response).

(** [Response.json]. *)
Definition Response_json {S : Type} (response : httpx.Response) : M S json :=
  match httpx.body response with
  | httpx.Decoded v => ret v
  | httpx.Malformed msg => raise (PyExc JSONDecodeError msg)
  end.

(** The truth value of [response.content]. *)
Definition content_nonempty (response : httpx.Response) : bool :=
  negb (String.eqb (httpx.text response) "").

(** *** [VMwareClient] *)

Definition __aenter__ : M VMwareClient VMwareClient := get_self.

Definition __aexit__ : M VMwareClient unit := on_client aclose.

Definition connect_failure {A : Type} (msg : string) : M VMwareClient A :=
  raise (PyExc Exception_ ("Failed to connect to VMware Fusion API: " ++ msg)).

Definition api_error {A : Type} (r : httpx.Response) : M VMwareClient A :=
  raise (PyExc Exception_
           ("VMware Fusion API error: " ++ Py.str_int (httpx.status_code r)
            ++ " - " ++ httpx.text r)).

Definition not_found {A : Type} (vm_id : string) : M VMwareClient A :=
  raise (PyExc Exception_ ("VM with ID '" ++ vm_id ++ "' not found")).

Definition list_vms : M VMwareClient json :=
  try_except
    (self <- get_self ;;
     response <- on_client (AsyncClient_get (base_url self ++ "/fusionsvc/vms")) ;;
     raise_for_status response ;;;
     Response_json response)
    (fun e =>
       match e with
       | RequestError msg => Some (connect_failure msg)
       | HTTPStatusError r => Some (api_error r)
       | PyExc _ _ => None
       end).

Definition get_vm_info (vm_id : string) : M VMwareClient json :=
  try_except
    (self <- get_self ;;
     response <- on_client (AsyncClient_get (base_url self ++ "/fusionsvc/vms/" ++ vm_id)) ;;
     raise_for_status response ;;;
     Response_json response)
    (fun e =>
       match e with
       | RequestError msg => Some (connect_failure msg)
       | HTTPStatusError r =>
           if (httpx.status_code r =? 404)%Z then Some (not_found vm_id)
           else Some (api_error r)
       | PyExc _ _ => None
       end).

Definition power_vm (vm_id action : string) : M VMwareClient json :=
  if negb (Py.str_in action valid_actions) then
    raise (PyExc ValueError
             ("Invalid action '" ++ action ++ "'. Valid actions: "
              ++ Py.repr_str_list valid_actions))
  else
    try_except
      (self <- get_self ;;
       response <- on_client
                     (AsyncClient_post
                        (base_url self ++ "/fusionsvc/vms/" ++ vm_id ++ "/" ++ action)) ;;
       raise_for_status response ;;;
       if content_nonempty response then Response_json response
       else ret (JDict [("status", JStr "success"); ("action", JStr action)]))
      (fun e =>
         match e with
         | RequestError msg => Some (connect_failure msg)
         | HTTPStatusError r =>
             if (httpx.status_code r =? 404)%Z then Some (not_found vm_id)
             else Some (api_error r)
         | PyExc _ _ => None
         end).

(** ** [server.py] *)

(** The module-level state: the global [vmware_client]. *)
Record globals : Type := {
  vmware_client : option VMwareClient
}.

(** [async with get_vmware_client() as client: body]. The global is
    created when it is [None]; [body] runs on it between [__aenter__] and
    [__aexit__], and [__aexit__] runs whether [body] returned or raised
    and lets the exception through. *)
Definition get_vmware_client {A : Type} (body : M VMwareClient A) : M globals A :=
  fun g =>
    let created :=
      match vmware_client g with
      | None => VMwareClient_default
      | Some c => c
      end in
    let (r, used) := (__aenter__ ;;; body) created in
    let (_, released) := __aexit__ used in
    (r, {| vmware_client := Some released |}).

Definition text_content (text : string) : list mcp.TextContent :=
  [ {| mcp.type := "text"; mcp.text := text |} ].

Definition handle_list_tools : list mcp.Tool :=
  [ {| mcp.name := "list_vms";
       mcp.description := "List all VMs in VMware Fusion";
       mcp.inputSchema :=
         JDict [("type", JStr "object"); ("properties", JDict []);
                ("required", JList [])] |};
    {| mcp.name := "get_vm_info";
       mcp.description := "Get detailed information about a specific VM";
       mcp.inputSchema :=
         JDict [("type", JStr "object");
                ("properties",
                 JDict [("vm_id",
                         JDict [("type", JStr "string");
                                ("description", JStr "VM ID to get info about")])]);
                ("required", JList [JStr "vm_id"])] |};
    {| mcp.name := "power_vm";
       mcp.description := "Perform a power action on a VM";
       mcp.inputSchema :=
         JDict [("type", JStr "object");
                ("properties",
                 JDict [("vm_id",
                         JDict [("type", JStr "string");
                                ("description", JStr "The ID of the VM to control")]);
                        ("action",
                         JDict [("type", JStr "string");
                                ("enum", JList (map JStr valid_actions));
                                ("description", JStr "Power action to perform")])]);
                ("required", JList [JStr "vm_id"; JStr "action"])] |} ].

(** The [for vm in vms] loop of [handle_list_vms]; [lines] is the list
    being appended to. *)
Fixpoint list_vms_loop {S : Type} (vms : list json) (lines : list string) : M S (list string) :=
  match vms with
  | [] => ret lines
  | vm :: rest =>
      vm_id <- method_get vm "id" (JStr "Unknown") ;;
      vm_path <- method_get vm "path" (JStr "Unknown") ;;
      list_vms_loop rest
        (Py.append
           (Py.append (Py.append lines ("ID: " ++ Py.str vm_id))
                      ("Path: " ++ Py.str vm_path))
           (Py.str_mul "-" 30))
  end.

Definition handle_list_vms : M globals mcp.CallToolResult :=
  get_vmware_client
    (vms <- list_vms ;;
     content <-
       (if negb (Py.truthy vms) then ret "No VMs found in VMware Fusion."
        else
          items <- iter vms ;;
          lines <- list_vms_loop items ["VMware Fusion VMs:"; Py.str_mul "=" 50] ;;
          ret (Py.join Py.nl lines)) ;;
     ret {| mcp.content := text_content content;
            mcp.structuredContent :=
              Some (if Py.truthy vms then JDict [("vms", vms)]
                    else JDict [("vms", JList [])]);
            mcp.isError := false |}).

(** The inner loop of [handle_get_vm_info], over the entries of a nested
    mapping. *)
Fixpoint sub_loop (items : pydict) (lines : list string) : list string :=
  match items with
  | [] => lines
  | (sub_key, sub_value) :: rest =>
      sub_loop rest (Py.append lines ("  " ++ sub_key ++ ": " ++ Py.str sub_value))
  end.

(** The outer loop of [handle_get_vm_info]. *)
Fixpoint info_loop (items : pydict) (lines : list string) : list string :=
  match items with
  | [] => lines
  | (key, value) :: rest =>
      match value with
      | JDict d => info_loop rest (sub_loop d (Py.append lines (Py.title key ++ ":")))
      | _ => info_loop rest (Py.append lines (Py.title key ++ ": " ++ Py.str value))
      end
  end.

Definition handle_get_vm_info (vm_id : string) : M globals mcp.CallToolResult :=
  get_vmware_client
    (vm_info <- get_vm_info vm_id ;;
     items <- method_items vm_info ;;
     let lines :=
       info_loop items ["VM Information for ID: " ++ vm_id; Py.str_mul "=" 50] in
     ret {| mcp.content := text_content (Py.join Py.nl lines);
            mcp.structuredContent := Some vm_info;
            mcp.isError := false |}).

Definition handle_power_vm (vm_id action : string) : M globals mcp.CallToolResult :=
  get_vmware_client
    (result <- power_vm vm_id action ;;
     let content := "Successfully performed '" ++ action ++ "' action on VM " ++ vm_id in
     status <- method_get result "status" JNull ;;
     content <-
       (if Py.truthy status then
          shown <- getitem result "status" ;;
          ret (content ++ " - Status: " ++ Py.str shown)
        else ret content) ;;
     ret {| mcp.content := text_content content;
            mcp.structuredContent := Some result;
            mcp.isError := false |}).

(** The [try] block of [handle_call_tool]. *)
Definition route (name : string) (arguments : pydict) : M globals mcp.CallToolResult :=
  if String.eqb name "list_vms" then handle_list_vms
  else if String.eqb name "get_vm_info" then
    params <- GetVMInfoParams.init arguments ;;
    handle_get_vm_info (GetVMInfoParams.vm_id params)
  else if String.eqb name "power_vm" then
    power_params <- PowerVMParams.init arguments ;;
    handle_power_vm (PowerVMParams.vm_id power_params) (PowerVMParams.action power_params)
  else raise (PyExc ValueError ("Unknown tool: " ++ name)).

(** The envelope built by the [except Exception as e] clause. *)
Definition error_result (e : exn) : mcp.CallToolResult :=
  {| mcp.content := text_content ("Error: " ++ exn_str e);
     mcp.structuredContent := None;
     mcp.isError := true |}.

Definition handle_call_tool (name : string) (arguments : pydict) : M globals mcp.CallToolResult :=
  try_except (route name arguments) (fun e => Some (ret (error_result e))).

End Program.

(** The process before any tool call: the global is [None]. *)
Definition fresh : globals := {| vmware_client := None |}.

(** The requests the process has put on the wire so far. *)
Definition network_calls (g : globals) : list httpx.Request :=
  match vmware_client g with
  | None => []
  | Some c => httpx.calls (_client c)
  end.

(** Whether the global client has been closed. *)
Definition session_closed (g : globals) : bool :=
  match vmware_client g with
  | Some c =>
      match httpx.state (_client c) with
      | httpx.CLOSED => true
      | _ => false
      end
  | None => false
  end.

(** The base URL the dispatcher's client talks to. *)
Definition session_base_url (g : globals) : string :=
  match vmware_client g with
  | Some c => base_url c
  | None => base_url VMwareClient_default
  end.

(** The text of the first content block of an envelope. *)
Definition human_text (r : mcp.CallToolResult) : string :=
  match mcp.content r with
  | [] => ""
  | block :: _ => mcp.text block
  end.

(** * Notions used in the properties *)

(** ** The process and its client *)

(** The names of the catalog, as [handle_list_tools] advertises them. *)
Definition catalog : list string := map mcp.name handle_list_tools.

(** The client a dispatch works on: the global, or a new one. *)
Definition acquired (g : globals) : VMwareClient :=
  match vmware_client g with
  | None => VMwareClient_default
  | Some c => c
  end.

(** [self] after [__aexit__]. *)
Definition released (self : VMwareClient) : VMwareClient :=
  {| base_url := base_url self; username := username self; password := password self;
     _client := {| httpx.state := httpx.CLOSED; httpx.calls := httpx.calls (_client self) |} |}.

(** [self] once [request] has gone out on it. *)
Definition after_request (self : VMwareClient) (request : httpx.Request) : VMwareClient :=
  {| base_url := base_url self; username := username self; password := password self;
     _client := {| httpx.state := httpx.OPENED;
                   httpx.calls := (httpx.calls (_client self) ++ [request])%list |} |}.

(** ** The requests of the three methods *)

(** As sent by the client [self]. *)
Definition list_request (self : VMwareClient) : httpx.Request :=
  {| httpx.method := httpx.GET; httpx.url := base_url self ++ "/fusionsvc/vms" |}.

Definition info_request (self : VMwareClient) (vm_id : string) : httpx.Request :=
  {| httpx.method := httpx.GET; httpx.url := base_url self ++ "/fusionsvc/vms/" ++ vm_id |}.

Definition power_request (self : VMwareClient) (vm_id action : string) : httpx.Request :=
  {| httpx.method := httpx.POST;
     httpx.url := base_url self ++ "/fusionsvc/vms/" ++ vm_id ++ "/" ++ action |}.

(** As sent by a dispatch from the state [g] of the process. *)
Definition list_vms_request (g : globals) : httpx.Request :=
  {| httpx.method := httpx.GET; httpx.url := session_base_url g ++ "/fusionsvc/vms" |}.

Definition get_vm_info_request (g : globals) (vm_id : string) : httpx.Request :=
  {| httpx.method := httpx.GET;
     httpx.url := session_base_url g ++ "/fusionsvc/vms/" ++ vm_id |}.

Definition power_vm_request (g : globals) (vm_id action : string) : httpx.Request :=
  {| httpx.method := httpx.POST;
     httpx.url := session_base_url g ++ "/fusionsvc/vms/" ++ vm_id ++ "/" ++ action |}.

(** ** The outcomes of the three methods *)

(** Whether [raise_for_status] lets a response through. *)
Definition is_success (r : httpx.Response) : bool :=
  (200 <=? httpx.status_code r)%Z && (httpx.status_code r <=? 299)%Z.

(** What [json()] returns or raises on a response. *)
Definition decoded_body (r : httpx.Response) : outcome json :=
  match httpx.body r with
  | httpx.Decoded v => Return v
  | httpx.Malformed msg => Raise (PyExc JSONDecodeError msg)
  end.

(** The exceptions the [except] clauses of the methods raise. *)
Definition connect_failure_exn (msg : string) : exn :=
  PyExc Exception_ ("Failed to connect to VMware Fusion API: " ++ msg).

Definition api_error_exn (r : httpx.Response) : exn :=
  PyExc Exception_
    ("VMware Fusion API error: " ++ Py.str_int (httpx.status_code r) ++ " - " ++ httpx.text r).

Definition not_found_exn (vm_id : string) : exn :=
  PyExc Exception_ ("VM with ID '" ++ vm_id ++ "' not found").

(** The exception of httpx on a closed client. *)
Definition closed_exn : exn :=
  PyExc RuntimeError "Cannot send a request, as the client has been closed.".

(** ** Predicates on computations *)

(** A built-in exception with a message, no httpx exception. *)
Definition is_PyExc (e : exn) : Prop := exists cls msg, e = PyExc cls msg.

(** A computation that raises built-in exceptions only. *)
Definition raises_PyExc {S A : Type} (c : M S A) : Prop :=
  forall s e, fst (c s) = Raise e -> is_PyExc e.

(** A computation that leaves the state as it found it. *)
Definition stateless {S A : Type} (c : M S A) : Prop := forall s, snd (c s) = s.

(** ** The declared arguments of the tools *)

(** The fields the parameter model of a tool declares, all of them required
    and of type [str]; [list_vms] builds no model. *)
Definition declared_fields (name : string) : list string :=
  if String.eqb name "get_vm_info" then ["vm_id"]
  else if String.eqb name "power_vm" then ["vm_id"; "action"]
  else [].

Definition model_name (name : string) : string :=
  if String.eqb name "get_vm_info" then "GetVMInfoParams" else "PowerVMParams".

(** [field] is missing from [arguments] or is no string there. *)
Definition violates (arguments : pydict) (field : string) : Prop :=
  forall s, Py.dict_get arguments field <> Some (JStr s).

(** ** The texts of the spec *)

(** What the spec prints for a field of a VM summary: the text itself when
    the field is a string, ["Unknown"] when the field is absent, and what
    Python's [str] makes of any other value. *)
Definition spec_field (vm : pydict) (key : string) : string :=
  match Py.dict_get vm key with
  | Some (JStr s) => s
  | Some v => Py.str v
  | None => "Unknown"
  end.

(** The three lines the spec gives for one VM summary. *)
Definition spec_vm_lines (vm : pydict) : list string :=
  [ "ID: " ++ spec_field vm "id";
    "Path: " ++ spec_field vm "path";
    "------------------------------" ].

(** The text the spec gives for a sequence of VM summaries, its lines
    joined by newlines. *)
Definition spec_list_vms_text (vms : list pydict) : string :=
  match vms with
  | [] => "No VMs found in VMware Fusion."
  | _ :: _ =>
      String.concat (String (ascii_of_nat 10) EmptyString)
        (["VMware Fusion VMs:"; "=================================================="]
           ++ flat_map spec_vm_lines vms)%list
  end.

(** What the code appends to the text for a result mapping: the status
    when there is one and it is truthy, else nothing. *)
Definition status_suffix (result : pydict) : string :=
  match Py.dict_get result "status" with
  | Some status => if Py.truthy status then " - Status: " ++ Py.str status else ""
  | None => ""
  end.

(** ** Remote APIs and responses of the examples *)

(** A remote API that cannot be reached. *)
Definition remote_down : list httpx.Request -> httpx.Request -> httpx.reply :=
  fun _ _ => httpx.TransportFailure "All connection attempts failed".

(** A remote API that answers every request with [r]. *)
Definition remote_always (r : httpx.Response) : list httpx.Request -> httpx.Request -> httpx.reply :=
  fun _ _ => httpx.Responded r.

(** [s] between double quotes, as JSON text writes a string. *)
Definition quoted (s : string) : string :=
  String Py.dquote (s ++ String Py.dquote EmptyString).

(** 200 with the body [body_text], which decodes to [v]. *)
Definition ok_with (body_text : string) (v : json) : httpx.Response :=
  {| httpx.status_code := 200; httpx.text := body_text; httpx.body := httpx.Decoded v |}.

(** 200 with an empty body, as the power endpoints may answer. *)
Definition empty_ok : httpx.Response :=
  {| httpx.status_code := 200;
     httpx.text := "";
     httpx.body := httpx.Malformed "Expecting value: line 1 column 1 (char 0)" |}.

(** 500 with a body that is no JSON. *)
Definition server_error : httpx.Response :=
  {| httpx.status_code := 500;
     httpx.text := "Internal Server Error";
     httpx.body := httpx.Malformed "Expecting value: line 1 column 1 (char 0)" |}.

(** 404 with an empty JSON object. *)
Definition missing_vm : httpx.Response :=
  {| httpx.status_code := 404;
     httpx.text := "{}";
     httpx.body := httpx.Decoded (JDict []) |}.

(** The remote API of the spec's example: one VM. *)
Definition one_vm : json :=
  JList [JDict [("id", JStr "vm1"); ("path", JStr "/path/to/vm1.vmx")]].

Definition one_vm_text : string :=
  "[{" ++ quoted "id" ++ ": " ++ quoted "vm1" ++ ", "
       ++ quoted "path" ++ ": " ++ quoted "/path/to/vm1.vmx" ++ "}]".

Definition remote_one_vm : list httpx.Request -> httpx.Request -> httpx.reply :=
  remote_always (ok_with one_vm_text one_vm).

(** Two VMs, the second without a path. *)
Definition two_vms : json :=
  JList [JDict [("id", JStr "vm1"); ("path", JStr "/path/to/vm1.vmx")];
         JDict [("id", JStr "vm2")]].

Definition two_vms_text : string :=
  "[{" ++ quoted "id" ++ ": " ++ quoted "vm1" ++ ", "
       ++ quoted "path" ++ ": " ++ quoted "/path/to/vm1.vmx" ++ "}, {"
       ++ quoted "id" ++ ": " ++ quoted "vm2" ++ "}]".

Definition remote_two_vms : list httpx.Request -> httpx.Request -> httpx.reply :=
  remote_always (ok_with two_vms_text two_vms).

(** A detail mapping with a nested mapping, a list and a null. *)
Definition vm1_detail : pydict :=
  [("id", JStr "vm1");
   ("cpu", JDict [("processors", JInt 2)]);
   ("memory", JInt 4096);
   ("tags", JList [JStr "dev"; JNull])].

Definition vm1_detail_text : string :=
  "{" ++ quoted "id" ++ ": " ++ quoted "vm1" ++ ", "
      ++ quoted "cpu" ++ ": {" ++ quoted "processors" ++ ": 2}, "
      ++ quoted "memory" ++ ": 4096, "
      ++ quoted "tags" ++ ": [" ++ quoted "dev" ++ ", null]}".

(** An empty JSON object, as the answer for a VM without details. *)
Definition empty_detail : httpx.Response := ok_with "{}" (JDict []).

(** A power endpoint that reports a numeric status, 0 for success. *)
Definition zero_status : httpx.Response :=
  ok_with ("{" ++ quoted "status" ++ ": 0}") (JDict [("status", JInt 0)]).

(** A power endpoint that reports the new power state. *)
Definition on_status : httpx.Response :=
  ok_with ("{" ++ quoted "status" ++ ": " ++ quoted "poweredOn" ++ "}")
          (JDict [("status", JStr "poweredOn")]).

(** ** Further notions: the client on its own *)

(** [s.endswith("/")]. *)
Fixpoint ends_with_slash (s : string) : bool :=
  match s with
  | EmptyString => false
  | String c rest =>
      match rest with
      | EmptyString => Ascii.eqb c "/"
      | String _ _ => ends_with_slash rest
      end
  end.

(** [async with self: body], as the callers of the client write it:
    [__aenter__], then [body], then [__aexit__] whether [body] returned or
    raised; [__aexit__] returns [None], so what [body] raised goes on. *)
Definition async_with {A : Type} (body : M VMwareClient A) : M VMwareClient A :=
  fun self =>
    let (r, used) := (__aenter__ ;;; body) self in
    let (_, after) := __aexit__ used in
    (r, after).

(** What one call of a method may do to the client it runs on: the
    configuration stays, and either nothing goes out and the life-cycle state
    stays, or the client was not closed, is open now, and [request] is the
    one request added to the wire. *)
Definition method_effect (self self' : VMwareClient) (request : httpx.Request) : Prop :=
  base_url self' = base_url self
  /\ username self' = username self
  /\ password self' = password self
  /\ ((httpx.calls (_client self') = httpx.calls (_client self)
       /\ httpx.state (_client self') = httpx.state (_client self))
      \/ (httpx.state (_client self) <> httpx.CLOSED
          /\ httpx.state (_client self') = httpx.OPENED
          /\ httpx.calls (_client self') = (httpx.calls (_client self) ++ [request])%list)).

(** ** URLs that httpx sends as they are written *)

Definition is_digit (c : ascii) : bool :=
  let n := nat_of_ascii c in Nat.leb 48 n && Nat.leb n 57.

Fixpoint all_chars (p : ascii -> bool) (s : string) : bool :=
  match s with
  | EmptyString => true
  | String c rest => p c && all_chars p rest
  end.

(** [s] without the prefix [p], when it starts with it. *)
Fixpoint strip_prefix (p s : string) : option string :=
  match p with
  | EmptyString => Some s
  | String a p' =>
      match s with
      | EmptyString => None
      | String b s' => if Ascii.eqb a b then strip_prefix p' s' else None
      end
  end.

(** [s] cut at its first [c]: what stands before it, and the rest from it
    on (empty when there is no [c]). *)
Fixpoint cut_at (c : ascii) (s : string) : string * string :=
  match s with
  | EmptyString => (EmptyString, EmptyString)
  | String a rest =>
      if Ascii.eqb a c then (EmptyString, s)
      else let (before, from) := cut_at c rest in (String a before, from)
  end.

(** A host name httpx keeps: lower-case letters, digits, hyphens and dots,
    starting with a letter (so it is no IP address, which httpx checks). *)
Definition plain_host (h : string) : bool :=
  match h with
  | EmptyString => false
  | String c _ =>
      Py.is_lower c
      && all_chars (fun a => Py.is_lower a || is_digit a || Ascii.eqb a "-" || Ascii.eqb a ".") h
  end.

Fixpoint digits_value (acc : N) (s : string) : N :=
  match s with
  | EmptyString => acc
  | String c rest => digits_value (10 * acc + (N_of_ascii c - 48))%N rest
  end.

(** A port httpx keeps: a decimal numeral without a leading zero, at most
    65535, and not the default port of a scheme (httpx drops that one). *)
Definition plain_port (p : string) : bool :=
  match p with
  | EmptyString => false
  | String c _ =>
      all_chars is_digit p
      && negb (Ascii.eqb c "0")
      && Nat.leb (String.length p) 5
      && (digits_value 0 p <=? 65535)%N
      && negb (digits_value 0 p =? 80)%N
      && negb (digits_value 0 p =? 443)%N
  end.

(** A path httpx keeps: letters, digits, hyphens, underscores and slashes (no
    character that it percent-encodes, no dot segment, no query, no
    fragment). *)
Definition plain_path_char (a : ascii) : bool :=
  Py.is_lower a || Py.is_upper a || is_digit a
  || Ascii.eqb a "-" || Ascii.eqb a "_" || Ascii.eqb a "/".

(** A sufficient condition for httpx to accept [url] and to send it as it
    is written: [http://] or [https://], a plain host, optionally a plain
    port, then a plain path, in at most 65536 characters. *)
Definition sendable_as_is (url : string) : bool :=
  (N.of_nat (String.length url) <=? 65536)%N
  && match
       match strip_prefix "http://" url with
       | Some rest => Some rest
       | None => strip_prefix "https://" url
       end
     with
     | None => false
     | Some rest =>
         let (authority, path) := cut_at "/" rest in
         let (host, port) := cut_at ":" authority in
         plain_host host
         && match port with
            | EmptyString => true
            | String _ digits => plain_port digits
            end
         && all_chars plain_path_char path
     end.

(** What one call of a method may do to the client and the wire, for the
    URL [raw] the source writes: the configuration stays, and either nothing
    goes out and the life-cycle state stays, or the client was not closed,
    is open now, and exactly one request went out, with the verb [verb] and
    a URL that is [raw] when httpx sends [raw] as it is written. *)
Definition wire_effect (verb : httpx.verb) (raw : string) (self self' : VMwareClient) : Prop :=
  base_url self' = base_url self
  /\ username self' = username self
  /\ password self' = password self
  /\ ((httpx.calls (_client self') = httpx.calls (_client self)
       /\ httpx.state (_client self') = httpx.state (_client self))
      \/ (httpx.state (_client self) <> httpx.CLOSED
          /\ httpx.state (_client self') = httpx.OPENED
          /\ exists u,
               httpx.calls (_client self')
               = (httpx.calls (_client self) ++ [ {| httpx.method := verb; httpx.url := u |} ])%list
               /\ (sendable_as_is raw = true -> u = raw))).

(** ** ASCII text *)

(** The text on which [Py.title] and [Py.repr] are Python's. *)
Definition is_ascii (s : string) : bool :=
  all_chars (fun c => Nat.ltb (nat_of_ascii c) 128) s.

(** Every string of a JSON value, keys included, is ASCII. *)
Fixpoint ascii_json (v : json) : bool :=
  match v with
  | JNull => true
  | JBool _ => true
  | JInt _ => true
  | JFloat r => is_ascii r
  | JStr s => is_ascii s
  | JList xs => forallb ascii_json xs
  | JDict kvs =>
      forallb (fun kv => match kv with
                         | (k, x) => is_ascii k && ascii_json x
                         end) kvs
  end.

(** ** Validation reports *)

(** [needle in hay], on strings. *)
Fixpoint occurs_in (needle hay : string) : bool :=
  String.prefix needle hay
  || match hay with
     | EmptyString => false
     | String _ rest => occurs_in needle rest
     end.

(** The declared fields of the tool that are missing from [arguments] or
    are no string there, each with what is wrong, in declaration order. *)
Definition failing_fields (name : string) (arguments : pydict)
  : list (string * pydantic.violation) :=
  flat_map (fun field =>
              match pydantic.str_field arguments field with
              | inl _ => []
              | inr err => [err]
              end)
           (declared_fields name).

(** ** Further notions: dispatches *)

(** Every field the model of the tool declares is a string in
    [arguments]. *)
Definition valid_arguments (name : string) (arguments : pydict) : Prop :=
  forall field, In field (declared_fields name) ->
    exists s, Py.dict_get arguments field = Some (JStr s).

(** The lines of one entry of a detail mapping: a nested mapping gives a
    heading and one indented line per entry of it, any other value one
    line. *)
Definition info_entry_lines (entry : string * json) : list string :=
  match snd entry with
  | JDict d =>
      (Py.title (fst entry) ++ ":")
        :: map (fun kv => "  " ++ fst kv ++ ": " ++ Py.str (snd kv)) d
  | v => [Py.title (fst entry) ++ ": " ++ Py.str v]
  end.

(** The error envelope of an [AttributeError] on a value that is no
    mapping. *)
Definition no_attribute_result (v : json) (attr : string) : mcp.CallToolResult :=
  error_result
    (PyExc AttributeError
       ("'" ++ Py.type_name v ++ "' object has no attribute '" ++ attr ++ "'")).

(** An envelope of a call that went through: no error flag, one text
    block, and a JSON object as structured content. *)
Definition success_shape (a : mcp.CallToolResult) : Prop :=
  mcp.isError a = false
  /\ (exists t, mcp.content a = [ {| mcp.type := "text"; mcp.text := t |} ])
  /\ (exists d, mcp.structuredContent a = Some (JDict d)).

(** * Properties *)

(** ** Python built-ins *)

Example repr_nested :
  Py.str (JDict [("cores", JInt 2); ("name", JStr "a'b"); ("on", JBool true)])
  = "{'cores': 2, 'name': " ++ String Py.dquote ("a'b" ++ String Py.dquote ", 'on': True}").
Proof. reflexivity. Qed.

Example title_examples :
  Py.title "cpu" = "Cpu" /\ Py.title "power_state" = "Power_State"
  /\ Py.title "ID" = "Id" /\ Py.title "vm2name" = "Vm2Name".
Proof. repeat split; reflexivity. Qed.

Example rstrip_examples :
  Py.rstrip_slash "http://localhost:8697" = "http://localhost:8697"
  /\ Py.rstrip_slash "http://h//" = "http://h" /\ Py.rstrip_slash "/" = "".
Proof. repeat split; reflexivity. Qed.

Example str_int_examples : Py.str_int 500 = "500" /\ Py.str_int (-7) = "-7" /\ Py.str_int 0 = "0".
Proof. repeat split; reflexivity. Qed.

(** ** The monad *)

Lemma bind_Return_inv (S A B : Type) (c : M S A) (k : A -> M S B) s b s' :
  bind c k s = (Return b, s') ->
  exists a s1, c s = (Return a, s1) /\ k a s1 = (Return b, s').
Proof.
  unfold bind. destruct (c s) as [[a | e] s1]; intros H.
  - exists a, s1. split; [reflexivity | exact H].
  - discriminate H.
Qed.

Lemma bind_Return (S A B : Type) (c : M S A) (k : A -> M S B) s a s1 :
  c s = (Return a, s1) -> bind c k s = k a s1.
Proof. unfold bind. intros ->. reflexivity. Qed.

Lemma bind_Raise (S A B : Type) (c : M S A) (k : A -> M S B) s e s1 :
  c s = (Raise e, s1) -> bind c k s = (Raise e, s1).
Proof. unfold bind. intros ->. reflexivity. Qed.

(** ** Membership in [valid_actions] and in the catalog *)

Lemma str_in_In x xs : Py.str_in x xs = true <-> In x xs.
Proof.
  induction xs as [| y rest IH]; simpl.
  - split; [discriminate | tauto].
  - rewrite orb_true_iff, IH, String.eqb_eq. split; intros [H | H]; auto.
Qed.

Lemma str_in_not_In x xs : Py.str_in x xs = false <-> ~ In x xs.
Proof.
  rewrite <- str_in_In. destruct (Py.str_in x xs); split; intros H; congruence.
Qed.

Lemma catalog_names : catalog = ["list_vms"; "get_vm_info"; "power_vm"].
Proof. reflexivity. Qed.

(** ** The session *)

Lemma get_vmware_client_run (A : Type) (body : M VMwareClient A) g :
  get_vmware_client body g =
  (fst (body (acquired g)), {| vmware_client := Some (released (snd (body (acquired g)))) |}).
Proof.
  unfold get_vmware_client, acquired, __aenter__, __aexit__, get_self, on_client, aclose, bind.
  destruct (body match vmware_client g with None => VMwareClient_default | Some c => c end)
    as [r used].
  reflexivity.
Qed.

Lemma acquired_calls g : httpx.calls (_client (acquired g)) = network_calls g.
Proof. unfold acquired, network_calls. destruct (vmware_client g); reflexivity. Qed.

Lemma acquired_base_url g : base_url (acquired g) = session_base_url g.
Proof. unfold acquired, session_base_url. destruct (vmware_client g); reflexivity. Qed.

Lemma acquired_state g :
  session_closed g = false <-> httpx.state (_client (acquired g)) <> httpx.CLOSED.
Proof.
  unfold acquired, session_closed. destruct (vmware_client g) as [c |]; simpl.
  - destruct (httpx.state (_client c)); split; congruence.
  - split; congruence.
Qed.

(** A request sent on a client that is not closed. *)
Lemma send_open remote request (self : VMwareClient) :
  httpx.state (_client self) <> httpx.CLOSED ->
  on_client (send remote request) self =
  (match remote (httpx.calls (_client self)) request with
   | httpx.TransportFailure msg => Raise (RequestError msg)
   | httpx.Responded r => Return r
   end,
   {| base_url := base_url self; username := username self; password := password self;
      _client := {| httpx.state := httpx.OPENED;
                    httpx.calls := (httpx.calls (_client self) ++ [request])%list |} |}).
Proof.
  intros Hopen. unfold on_client, send.
  destruct (httpx.state (_client self)); try congruence;
    destruct (remote (httpx.calls (_client self)) request); reflexivity.
Qed.

(** A request on a closed client is refused and nothing is sent. *)
Lemma send_closed remote request (self : VMwareClient) :
  httpx.state (_client self) = httpx.CLOSED ->
  on_client (send remote request) self =
  (Raise (PyExc RuntimeError "Cannot send a request, as the client has been closed."), self).
Proof.
  intros Hclosed. unfold on_client, send. rewrite Hclosed.
  destruct self as [b u p c]; reflexivity.
Qed.

(** ** The exceptions that leave the client *)

Lemma try_except_raises_PyExc (S A : Type) (c : M S A) handler s e :
  (forall e0, handler e0 = None -> is_PyExc e0) ->
  (forall e0 h s0 e1, handler e0 = Some h -> fst (h s0) = Raise e1 -> is_PyExc e1) ->
  fst (try_except c handler s) = Raise e -> is_PyExc e.
Proof.
  intros Hnone Hsome. unfold try_except.
  destruct (c s) as [[a | e0] s0]; simpl; [discriminate |].
  destruct (handler e0) as [h |] eqn:Hh.
  - intros H. exact (Hsome _ _ _ _ Hh H).
  - simpl. intros H. inversion H; subst. exact (Hnone _ Hh).
Qed.

Ltac handler_cases :=
  match goal with
  | |- forall e0, _ = None -> is_PyExc e0 =>
      intros [cls msg | msg | r] H; simpl in H;
      [ exists cls, msg; reflexivity | discriminate H
      | try discriminate H; try (destruct (_ =? _)%Z; discriminate H) ]
  | |- forall e0 h s0 e1, _ = Some h -> _ -> is_PyExc e1 =>
      intros [cls msg | msg | r] h s0 e1 H Hr; simpl in H;
      [ discriminate H | |
        try match type of H with
            | (if ?b then _ else _) = _ => destruct b
            end ];
      inversion H; subst; simpl in Hr; inversion Hr; subst;
      eexists; eexists; reflexivity
  end.

Lemma list_vms_raises_PyExc remote self e :
  fst (list_vms remote self) = Raise e -> is_PyExc e.
Proof. unfold list_vms. apply try_except_raises_PyExc; handler_cases. Qed.

Lemma get_vm_info_raises_PyExc remote vm_id self e :
  fst (get_vm_info remote vm_id self) = Raise e -> is_PyExc e.
Proof. unfold get_vm_info. apply try_except_raises_PyExc; handler_cases. Qed.

Lemma power_vm_raises_PyExc remote vm_id action self e :
  fst (power_vm remote vm_id action self) = Raise e -> is_PyExc e.
Proof.
  unfold power_vm. destruct (negb (Py.str_in action valid_actions)).
  - simpl. intros H. inversion H; subst. eexists; eexists; reflexivity.
  - apply try_except_raises_PyExc; handler_cases.
Qed.

(** *** Computations that raise built-in exceptions only *)

Lemma raises_PyExc_ret (S A : Type) (a : A) : raises_PyExc (@ret S A a).
Proof. intros s e H. discriminate H. Qed.

Lemma raises_PyExc_raise (S A : Type) cls msg : raises_PyExc (@raise S A (PyExc cls msg)).
Proof. intros s e H. inversion H. exists cls, msg. reflexivity. Qed.

Lemma raises_PyExc_bind (S A B : Type) (c : M S A) (k : A -> M S B) :
  raises_PyExc c -> (forall a, raises_PyExc (k a)) -> raises_PyExc (bind c k).
Proof.
  intros Hc Hk s e. unfold bind. specialize (Hc s).
  destruct (c s) as [[a | e0] s1]; simpl in *.
  - apply Hk.
  - intros H. inversion H; subst. apply Hc. reflexivity.
Qed.

Lemma raises_PyExc_if (S A : Type) (b : bool) (c1 c2 : M S A) :
  raises_PyExc c1 -> raises_PyExc c2 -> raises_PyExc (if b then c1 else c2).
Proof. destruct b; auto. Qed.

Lemma raises_PyExc_attribute_error (S A : Type) v attr :
  raises_PyExc (@attribute_error S A v attr).
Proof. apply raises_PyExc_raise. Qed.

Lemma raises_PyExc_method_get (S : Type) v key default :
  raises_PyExc (@method_get S v key default).
Proof.
  destruct v; simpl; try apply raises_PyExc_attribute_error. apply raises_PyExc_ret.
Qed.

Lemma raises_PyExc_method_items (S : Type) v : raises_PyExc (@method_items S v).
Proof.
  destruct v; simpl; try apply raises_PyExc_attribute_error. apply raises_PyExc_ret.
Qed.

Lemma raises_PyExc_getitem (S : Type) v key : raises_PyExc (@getitem S v key).
Proof.
  destruct v; simpl; try apply raises_PyExc_raise.
  destruct (Py.dict_get kvs key); [apply raises_PyExc_ret | apply raises_PyExc_raise].
Qed.

Lemma raises_PyExc_iter (S : Type) v : raises_PyExc (@iter S v).
Proof. destruct v; simpl; try apply raises_PyExc_raise; apply raises_PyExc_ret. Qed.

Lemma raises_PyExc_list_vms_loop (S : Type) vms lines :
  raises_PyExc (@list_vms_loop S vms lines).
Proof.
  revert lines. induction vms as [| vm rest IH]; intros lines; simpl.
  - apply raises_PyExc_ret.
  - apply raises_PyExc_bind; [apply raises_PyExc_method_get | intros vm_id].
    apply raises_PyExc_bind; [apply raises_PyExc_method_get | intros vm_path].
    apply IH.
Qed.

Lemma raises_PyExc_GetVMInfoParams (S : Type) arguments :
  raises_PyExc (@GetVMInfoParams.init S arguments).
Proof.
  unfold GetVMInfoParams.init, pydantic.validation_error.
  destruct (pydantic.str_field arguments "vm_id");
    [apply raises_PyExc_ret | apply raises_PyExc_raise].
Qed.

Lemma raises_PyExc_PowerVMParams (S : Type) arguments :
  raises_PyExc (@PowerVMParams.init S arguments).
Proof.
  unfold PowerVMParams.init, pydantic.validation_error.
  destruct (pydantic.str_field arguments "vm_id"), (pydantic.str_field arguments "action");
    try apply raises_PyExc_ret; apply raises_PyExc_raise.
Qed.

Lemma raises_PyExc_list_vms remote : raises_PyExc (list_vms remote).
Proof. intros s e. apply list_vms_raises_PyExc. Qed.

Lemma raises_PyExc_get_vm_info remote vm_id : raises_PyExc (get_vm_info remote vm_id).
Proof. intros s e. apply get_vm_info_raises_PyExc. Qed.

Lemma raises_PyExc_power_vm remote vm_id action : raises_PyExc (power_vm remote vm_id action).
Proof. intros s e. apply power_vm_raises_PyExc. Qed.

Create HintDb raises.

#[local] Hint Resolve raises_PyExc_ret raises_PyExc_raise raises_PyExc_bind raises_PyExc_if
  raises_PyExc_method_get raises_PyExc_method_items raises_PyExc_getitem raises_PyExc_iter
  raises_PyExc_list_vms_loop raises_PyExc_GetVMInfoParams raises_PyExc_PowerVMParams
  raises_PyExc_list_vms raises_PyExc_get_vm_info raises_PyExc_power_vm : raises.

(** ** Envelopes of the handlers *)

Lemma fst_eq_pair (A B : Type) (p : A * B) (a : A) : fst p = a -> p = (a, snd p).
Proof. destruct p; simpl; intros ->; reflexivity. Qed.

Ltac binds_in H :=
  repeat (let x := fresh "x" in
          let s := fresh "s" in
          let Hc := fresh "Hc" in
          apply bind_Return_inv in H; destruct H as (x & s & Hc & H)).

(** A handler that returns, returns an envelope that is no error. *)
Lemma handle_list_vms_not_error remote g a g' :
  handle_list_vms remote g = (Return a, g') -> mcp.isError a = false.
Proof.
  unfold handle_list_vms. rewrite get_vmware_client_run. intros H.
  inversion H as [[Hfst Hsnd]]. clear H Hsnd.
  apply fst_eq_pair in Hfst. binds_in Hfst.
  unfold ret in Hfst. inversion Hfst. reflexivity.
Qed.

Lemma handle_get_vm_info_not_error remote vm_id g a g' :
  handle_get_vm_info remote vm_id g = (Return a, g') -> mcp.isError a = false.
Proof.
  unfold handle_get_vm_info. rewrite get_vmware_client_run. intros H.
  inversion H as [[Hfst Hsnd]]. clear H Hsnd.
  apply fst_eq_pair in Hfst. binds_in Hfst.
  unfold ret in Hfst. inversion Hfst. reflexivity.
Qed.

Lemma handle_power_vm_not_error remote vm_id action g a g' :
  handle_power_vm remote vm_id action g = (Return a, g') -> mcp.isError a = false.
Proof.
  unfold handle_power_vm. rewrite get_vmware_client_run. intros H.
  inversion H as [[Hfst Hsnd]]. clear H Hsnd.
  apply fst_eq_pair in Hfst. cbv zeta in Hfst. binds_in Hfst.
  unfold ret in Hfst. inversion Hfst. reflexivity.
Qed.

Lemma route_not_error remote name arguments g a g' :
  route remote name arguments g = (Return a, g') -> mcp.isError a = false.
Proof.
  unfold route.
  destruct (String.eqb name "list_vms"); [apply handle_list_vms_not_error |].
  destruct (String.eqb name "get_vm_info").
  { intros H. binds_in H. exact (handle_get_vm_info_not_error _ _ _ H). }
  destruct (String.eqb name "power_vm").
  { intros H. binds_in H. exact (handle_power_vm_not_error _ _ _ _ H). }
  discriminate.
Qed.

Lemma raises_PyExc_get_vmware_client (A : Type) (body : M VMwareClient A) :
  raises_PyExc body -> raises_PyExc (get_vmware_client body).
Proof.
  intros Hbody g e. rewrite get_vmware_client_run. simpl. apply Hbody.
Qed.

(** Whatever the [try] block of [handle_call_tool] raises is a built-in
    exception with a message. *)
Lemma route_raises_PyExc remote name arguments : raises_PyExc (route remote name arguments).
Proof.
  unfold route, handle_list_vms, handle_get_vm_info, handle_power_vm.
  repeat apply raises_PyExc_if;
    try (apply raises_PyExc_bind; [auto with raises | intros params]);
    try apply raises_PyExc_get_vmware_client; cbv zeta; auto 12 with raises.
Qed.

Lemma prefix_app (p s : string) : String.prefix p (p ++ s) = true.
Proof.
  induction p as [| c p IH]; simpl.
  - destruct s; reflexivity.
  - destruct (ascii_dec c c); [exact IH | congruence].
Qed.

(** The [except] clause at work: the envelope of a dispatch is the one
    the [try] block returned, or the error envelope of what it raised. *)
Lemma handle_call_tool_run remote name arguments g :
  handle_call_tool remote name arguments g =
  (Return match fst (route remote name arguments g) with
          | Return a => a
          | Raise e => error_result e
          end,
   snd (route remote name arguments g)).
Proof.
  unfold handle_call_tool, try_except.
  destruct (route remote name arguments g) as [[a | e] g']; reflexivity.
Qed.

(** C1. For every tool name, argument mapping, remote API and state of the
    process, [handle_call_tool] returns an envelope and raises nothing; the
    envelope is the one the [try] block returned (and then no error), or,
    when the [try] block raised [e], which is then a built-in exception
    with a message, an envelope flagged [isError], without structured
    content, whose text is ["Error: "] followed by [str(e)], hence begins
    with ["Error: "] or ["Unknown tool: "]. *)
Theorem handle_call_tool_never_raises
    (remote : list httpx.Request -> httpx.Request -> httpx.reply)
    (name : string) (arguments : pydict) (g : globals) :
  exists r g',
    handle_call_tool remote name arguments g = (Return r, g')
    /\ match fst (route remote name arguments g) with
       | Return a => r = a /\ mcp.isError r = false
       | Raise e =>
           mcp.isError r = true
           /\ mcp.structuredContent r = None
           /\ (exists cls msg, e = PyExc cls msg)
           /\ human_text r = "Error: " ++ exn_str e
           /\ (String.prefix "Error: " (human_text r) = true
               \/ String.prefix "Unknown tool: " (human_text r) = true)
       end.
Proof.
  rewrite handle_call_tool_run.
  eexists; eexists; split; [reflexivity |].
  destruct (route remote name arguments g) as [[a | e] g'] eqn:Hroute; simpl.
  - split; [reflexivity | exact (route_not_error _ _ _ _ Hroute)].
  - repeat split.
    + apply (route_raises_PyExc remote name arguments g). rewrite Hroute. reflexivity.
    + left. exact (prefix_app "Error: " (exn_str e)).
Qed.

(** ** Unknown tools *)

(** C3, as stated, fails: the text of the envelope for the unknown name
    ["unknown_tool"] is ["Error: Unknown tool: unknown_tool"], which is not
    ["Unknown tool: unknown_tool"]. *)
Lemma unknown_tool_text_is_prefixed :
  handle_call_tool remote_down "unknown_tool" [] fresh =
    (Return (error_result (PyExc ValueError "Unknown tool: unknown_tool")), fresh)
  /\ human_text (error_result (PyExc ValueError "Unknown tool: unknown_tool"))
     = "Error: Unknown tool: unknown_tool"
  /\ human_text (error_result (PyExc ValueError "Unknown tool: unknown_tool"))
     <> "Unknown tool: unknown_tool".
Proof.
  split; [reflexivity | split; [reflexivity | discriminate]].
Qed.

Lemma not_in_catalog name :
  ~ In name catalog ->
  String.eqb name "list_vms" = false
  /\ String.eqb name "get_vm_info" = false
  /\ String.eqb name "power_vm" = false.
Proof.
  rewrite catalog_names. simpl. intros H.
  repeat split; apply String.eqb_neq; intros ->; apply H; auto.
Qed.

(** C3, amended. For every name outside the catalog and every argument
    mapping, [handle_call_tool] returns the error envelope whose text is
    exactly ["Error: Unknown tool: {name}"], with [isError] set and no
    structured content; the state of the process is untouched, so no
    request is sent. *)
Theorem unknown_tool_envelope
    (remote : list httpx.Request -> httpx.Request -> httpx.reply)
    (name : string) (arguments : pydict) (g : globals) :
  ~ In name catalog ->
  handle_call_tool remote name arguments g =
    (Return {| mcp.content := [ {| mcp.type := "text"; mcp.text := ("Error: Unknown tool: " ++ name) |} ];
               mcp.structuredContent := None;
               mcp.isError := true |},
     g)
  /\ network_calls (snd (handle_call_tool remote name arguments g)) = network_calls g.
Proof.
  intros Hname. destruct (not_in_catalog Hname) as (H1 & H2 & H3).
  assert (Hrun : handle_call_tool remote name arguments g =
                 (Return (error_result (PyExc ValueError ("Unknown tool: " ++ name))), g)).
  { unfold handle_call_tool, try_except, route. rewrite H1, H2, H3. reflexivity. }
  rewrite Hrun. split; reflexivity.
Qed.

Lemma unknown_tool_envelope_witness :
  handle_call_tool remote_down "unknown_tool" [("vm_id", JStr "vm1")] fresh =
    (Return {| mcp.content := [ {| mcp.type := "text"; mcp.text := "Error: Unknown tool: unknown_tool" |} ];
               mcp.structuredContent := None;
               mcp.isError := true |},
     fresh)
  /\ network_calls
       (snd (handle_call_tool remote_down "unknown_tool" [("vm_id", JStr "vm1")] fresh))
     = network_calls fresh.
Proof.
  apply (@unknown_tool_envelope remote_down "unknown_tool" [("vm_id", JStr "vm1")] fresh).
  rewrite catalog_names. simpl.
  intros [H | [H | [H | []]]]; discriminate H.
Defined.

(** ** Validation of the power action *)

Lemma power_vm_invalid remote vm_id action self :
  ~ In action valid_actions ->
  power_vm remote vm_id action self =
  (Raise (PyExc ValueError
            ("Invalid action '" ++ action
             ++ "'. Valid actions: ['on', 'off', 'suspend', 'pause', 'unpause', 'reset']")),
   self).
Proof.
  intros H. apply str_in_not_In in H. unfold power_vm. rewrite H. reflexivity.
Qed.

(** The three methods on a client that is not closed, by what the remote
    API answers: one request goes out, and the reply decides the outcome. *)
Lemma list_vms_run remote self :
  httpx.state (_client self) <> httpx.CLOSED ->
  list_vms remote self =
  (match remote (httpx.calls (_client self)) (list_request self) with
   | httpx.TransportFailure msg => Raise (connect_failure_exn msg)
   | httpx.Responded r => if is_success r then decoded_body r else Raise (api_error_exn r)
   end,
   after_request self (list_request self)).
Proof.
  intros Hopen.
  unfold list_vms, try_except, bind, get_self, AsyncClient_get.
  rewrite send_open by exact Hopen.
  fold (list_request self). fold (after_request self (list_request self)).
  destruct (remote (httpx.calls (_client self)) (list_request self)) as [msg | r];
    [reflexivity |].
  unfold raise_for_status, is_success, decoded_body, Response_json.
  destruct ((200 <=? httpx.status_code r)%Z && (httpx.status_code r <=? 299)%Z); simpl.
  - destruct (httpx.body r); reflexivity.
  - reflexivity.
Qed.

Lemma get_vm_info_run remote vm_id self :
  httpx.state (_client self) <> httpx.CLOSED ->
  get_vm_info remote vm_id self =
  (match remote (httpx.calls (_client self)) (info_request self vm_id) with
   | httpx.TransportFailure msg => Raise (connect_failure_exn msg)
   | httpx.Responded r =>
       if is_success r then decoded_body r
       else if (httpx.status_code r =? 404)%Z then Raise (not_found_exn vm_id)
       else Raise (api_error_exn r)
   end,
   after_request self (info_request self vm_id)).
Proof.
  intros Hopen.
  unfold get_vm_info, try_except, bind, get_self, AsyncClient_get.
  rewrite send_open by exact Hopen.
  fold (info_request self vm_id). fold (after_request self (info_request self vm_id)).
  destruct (remote (httpx.calls (_client self)) (info_request self vm_id)) as [msg | r];
    [reflexivity |].
  unfold raise_for_status, is_success, decoded_body, Response_json.
  destruct ((200 <=? httpx.status_code r)%Z && (httpx.status_code r <=? 299)%Z); simpl.
  - destruct (httpx.body r); reflexivity.
  - destruct (httpx.status_code r =? 404)%Z; reflexivity.
Qed.

Lemma power_vm_run remote vm_id action self :
  In action valid_actions ->
  httpx.state (_client self) <> httpx.CLOSED ->
  power_vm remote vm_id action self =
  (match remote (httpx.calls (_client self)) (power_request self vm_id action) with
   | httpx.TransportFailure msg => Raise (connect_failure_exn msg)
   | httpx.Responded r =>
       if is_success r then
         if content_nonempty r then decoded_body r
         else Return (JDict [("status", JStr "success"); ("action", JStr action)])
       else if (httpx.status_code r =? 404)%Z then Raise (not_found_exn vm_id)
       else Raise (api_error_exn r)
   end,
   after_request self (power_request self vm_id action)).
Proof.
  intros Hin Hopen. apply str_in_In in Hin.
  unfold power_vm. rewrite Hin. change (negb true) with false. cbv iota.
  unfold try_except, bind, get_self, AsyncClient_post.
  rewrite send_open by exact Hopen.
  fold (power_request self vm_id action).
  fold (after_request self (power_request self vm_id action)).
  destruct (remote (httpx.calls (_client self)) (power_request self vm_id action)) as [msg | r];
    [reflexivity |].
  unfold raise_for_status, is_success, decoded_body, Response_json.
  destruct ((200 <=? httpx.status_code r)%Z && (httpx.status_code r <=? 299)%Z); simpl.
  - destruct (content_nonempty r); [| reflexivity].
    destruct (httpx.body r); reflexivity.
  - destruct (httpx.status_code r =? 404)%Z; reflexivity.
Qed.

(** The three methods on a closed client: httpx refuses to send, no
    [except] clause of the method matches, and nothing goes out. *)
Lemma list_vms_closed remote self :
  httpx.state (_client self) = httpx.CLOSED ->
  list_vms remote self = (Raise closed_exn, self).
Proof.
  intros Hclosed. unfold list_vms, try_except, bind, get_self, AsyncClient_get.
  rewrite send_closed by exact Hclosed. reflexivity.
Qed.

Lemma get_vm_info_closed remote vm_id self :
  httpx.state (_client self) = httpx.CLOSED ->
  get_vm_info remote vm_id self = (Raise closed_exn, self).
Proof.
  intros Hclosed. unfold get_vm_info, try_except, bind, get_self, AsyncClient_get.
  rewrite send_closed by exact Hclosed. reflexivity.
Qed.

Lemma power_vm_closed remote vm_id action self :
  In action valid_actions ->
  httpx.state (_client self) = httpx.CLOSED ->
  power_vm remote vm_id action self = (Raise closed_exn, self).
Proof.
  intros Hin Hclosed. apply str_in_In in Hin.
  unfold power_vm. rewrite Hin. change (negb true) with false. cbv iota.
  unfold try_except, bind, get_self, AsyncClient_post.
  rewrite send_closed by exact Hclosed. reflexivity.
Qed.

Lemma state_closed_dec (c : httpx.AsyncClient) :
  {httpx.state c = httpx.CLOSED} + {httpx.state c <> httpx.CLOSED}.
Proof. destruct (httpx.state c); [right | right | left]; congruence. Qed.




(** A valid action on a body that is no JSON: the error raised is a
    [ValueError] by class, and is not the one of the action check. *)
Example valid_action_undecodable_body :
  fst (power_vm
         (remote_always
            {| httpx.status_code := 200;
               httpx.text := "<html>";
               httpx.body := httpx.Malformed "Expecting value: line 1 column 1 (char 0)" |})
         "vm1" "on" VMwareClient_default)
  = Raise (PyExc JSONDecodeError "Expecting value: line 1 column 1 (char 0)")
  /\ exn_isinstance (PyExc JSONDecodeError "Expecting value: line 1 column 1 (char 0)")
       ValueError = true
  /\ exn_isinstance (PyExc RuntimeError "Cannot send a request, as the client has been closed.")
       ValueError = false.
Proof. repeat split. Qed.

(** ** HTTP status errors *)

(** C6. On a client that is not closed, when the remote API answers a
    request with a status outside 200..299: [get_vm_info] and [power_vm]
    raise ["VM with ID '{vm_id}' not found"] when the status is 404, and
    ["VMware Fusion API error: {status_code} - {body text}"] for any other
    status; [list_vms] raises the latter message for every such status. *)
Theorem http_status_error_messages
    (remote : list httpx.Request -> httpx.Request -> httpx.reply)
    (self : VMwareClient) (vm_id action : string) (r : httpx.Response) :
  httpx.state (_client self) <> httpx.CLOSED ->
  ~ (200 <= httpx.status_code r <= 299)%Z ->
  let generic :=
    "VMware Fusion API error: " ++ Py.str_int (httpx.status_code r) ++ " - " ++ httpx.text r in
  let tailored := "VM with ID '" ++ vm_id ++ "' not found" in
  let scoped := if (httpx.status_code r =? 404)%Z then tailored else generic in
  (remote (httpx.calls (_client self)) (info_request self vm_id) = httpx.Responded r ->
   fst (get_vm_info remote vm_id self) = Raise (PyExc Exception_ scoped))
  /\ (In action valid_actions ->
      remote (httpx.calls (_client self)) (power_request self vm_id action) = httpx.Responded r ->
      fst (power_vm remote vm_id action self) = Raise (PyExc Exception_ scoped))
  /\ (remote (httpx.calls (_client self)) (list_request self) = httpx.Responded r ->
      fst (list_vms remote self) = Raise (PyExc Exception_ generic)).
Proof.
  intros Hopen Hstatus generic tailored scoped.
  assert (Hfail : is_success r = false).
  { unfold is_success. apply andb_false_iff.
    destruct (Z.leb_spec 200 (httpx.status_code r)); [right | left; reflexivity].
    apply Z.leb_gt. lia. }
  repeat split.
  - intros Hreply. rewrite get_vm_info_run by exact Hopen. rewrite Hreply, Hfail. simpl.
    unfold scoped. destruct (httpx.status_code r =? 404)%Z; reflexivity.
  - intros Hin Hreply. rewrite power_vm_run by assumption. rewrite Hreply, Hfail.
    simpl. unfold scoped. destruct (httpx.status_code r =? 404)%Z; reflexivity.
  - intros Hreply. rewrite list_vms_run by exact Hopen. rewrite Hreply, Hfail. reflexivity.
Qed.

Lemma http_status_error_messages_witness :
  (fst (get_vm_info (remote_always missing_vm) "vm9" VMwareClient_default)
   = Raise (PyExc Exception_ "VM with ID 'vm9' not found")
   /\ fst (power_vm (remote_always missing_vm) "vm9" "off" VMwareClient_default)
      = Raise (PyExc Exception_ "VM with ID 'vm9' not found"))
  /\ fst (list_vms (remote_always server_error) VMwareClient_default)
     = Raise (PyExc Exception_ "VMware Fusion API error: 500 - Internal Server Error").
Proof.
  assert (Hopen : httpx.state (_client VMwareClient_default) <> httpx.CLOSED)
    by (simpl; discriminate).
  assert (H404 : ~ (200 <= httpx.status_code missing_vm <= 299)%Z) by (simpl; lia).
  assert (H500 : ~ (200 <= httpx.status_code server_error <= 299)%Z) by (simpl; lia).
  pose proof (@http_status_error_messages (remote_always missing_vm) VMwareClient_default
                "vm9" "off" missing_vm Hopen H404) as (Hinfo & Hpower & _).
  pose proof (@http_status_error_messages (remote_always server_error) VMwareClient_default
                "vm9" "off" server_error Hopen H500) as (_ & _ & Hlist).
  split; [split |].
  - exact (Hinfo eq_refl).
  - apply Hpower; [simpl; auto | reflexivity].
  - exact (Hlist eq_refl).
Defined.

(** ** Computations that leave the state alone *)

Create HintDb stateless.

Lemma stateless_ret (S A : Type) (a : A) : stateless (@ret S A a).
Proof. intros s. reflexivity. Qed.

Lemma stateless_raise (S A : Type) (e : exn) : stateless (@raise S A e).
Proof. intros s. reflexivity. Qed.

Lemma stateless_bind (S A B : Type) (c : M S A) (k : A -> M S B) :
  stateless c -> (forall a, stateless (k a)) -> stateless (bind c k).
Proof.
  intros Hc Hk s. unfold bind. specialize (Hc s).
  destruct (c s) as [[a | e] s1]; simpl in Hc; subst s1.
  - apply Hk.
  - reflexivity.
Qed.

Lemma stateless_if (S A : Type) (b : bool) (c1 c2 : M S A) :
  stateless c1 -> stateless c2 -> stateless (if b then c1 else c2).
Proof. destruct b; auto. Qed.

Lemma stateless_method_get (S : Type) v key default : stateless (@method_get S v key default).
Proof. intros s. destruct v; reflexivity. Qed.

Lemma stateless_method_items (S : Type) v : stateless (@method_items S v).
Proof. intros s. destruct v; reflexivity. Qed.

Lemma stateless_getitem (S : Type) v key : stateless (@getitem S v key).
Proof.
  intros s. destruct v; try reflexivity. simpl.
  destruct (Py.dict_get kvs key); reflexivity.
Qed.

Lemma stateless_iter (S : Type) v : stateless (@iter S v).
Proof. intros s. destruct v; reflexivity. Qed.

Lemma stateless_list_vms_loop (S : Type) vms lines : stateless (@list_vms_loop S vms lines).
Proof.
  revert lines. induction vms as [| vm rest IH]; intros lines; simpl.
  - apply stateless_ret.
  - apply stateless_bind; [apply stateless_method_get | intros vm_id].
    apply stateless_bind; [apply stateless_method_get | intros vm_path].
    apply IH.
Qed.

Lemma stateless_GetVMInfoParams (S : Type) arguments :
  stateless (@GetVMInfoParams.init S arguments).
Proof.
  intros s. unfold GetVMInfoParams.init.
  destruct (pydantic.str_field arguments "vm_id"); reflexivity.
Qed.

Lemma stateless_PowerVMParams (S : Type) arguments :
  stateless (@PowerVMParams.init S arguments).
Proof.
  intros s. unfold PowerVMParams.init.
  destruct (pydantic.str_field arguments "vm_id"), (pydantic.str_field arguments "action");
    reflexivity.
Qed.

#[local] Hint Resolve stateless_ret stateless_raise stateless_bind stateless_if
  stateless_method_get stateless_method_items stateless_getitem stateless_iter
  stateless_list_vms_loop : stateless.

Lemma snd_bind_stateless (S A B : Type) (c : M S A) (k : A -> M S B) s :
  (forall a, stateless (k a)) -> snd (bind c k s) = snd (c s).
Proof.
  intros Hk. unfold bind. destruct (c s) as [[a | e] s1]; simpl; [apply Hk | reflexivity].
Qed.

(** Each handler leaves the global set to the client it worked on, closed,
    and that client saw exactly what the one method call did to it. *)
Lemma handle_list_vms_state remote g :
  snd (handle_list_vms remote g) =
  {| vmware_client := Some (released (snd (list_vms remote (acquired g)))) |}.
Proof.
  unfold handle_list_vms. rewrite get_vmware_client_run. simpl.
  rewrite snd_bind_stateless; [reflexivity |].
  intros vms. auto 10 with stateless.
Qed.

Lemma handle_get_vm_info_state remote vm_id g :
  snd (handle_get_vm_info remote vm_id g) =
  {| vmware_client := Some (released (snd (get_vm_info remote vm_id (acquired g)))) |}.
Proof.
  unfold handle_get_vm_info. rewrite get_vmware_client_run. simpl.
  rewrite snd_bind_stateless; [reflexivity |].
  intros vm_info. auto 10 with stateless.
Qed.

Lemma handle_power_vm_state remote vm_id action g :
  snd (handle_power_vm remote vm_id action g) =
  {| vmware_client := Some (released (snd (power_vm remote vm_id action (acquired g)))) |}.
Proof.
  unfold handle_power_vm. rewrite get_vmware_client_run. simpl.
  rewrite snd_bind_stateless; [reflexivity |].
  intros result. cbv zeta. auto 10 with stateless.
Qed.

(** ** The session across dispatches *)

Lemma acquired_closed g :
  session_closed g = true -> httpx.state (_client (acquired g)) = httpx.CLOSED.
Proof.
  unfold session_closed, acquired. destruct (vmware_client g) as [c |]; [| discriminate].
  destruct (httpx.state (_client c)); congruence.
Qed.

Lemma power_vm_closed_state remote vm_id action self :
  httpx.state (_client self) = httpx.CLOSED ->
  snd (power_vm remote vm_id action self) = self.
Proof.
  intros Hclosed. destruct (Py.str_in action valid_actions) eqn:Hin.
  - apply str_in_In in Hin. rewrite power_vm_closed by assumption. reflexivity.
  - apply str_in_not_In in Hin. rewrite power_vm_invalid by assumption. reflexivity.
Qed.

(** Once the global client is closed, no dispatch sends anything and the
    client stays closed. *)
Lemma route_on_closed_session remote name arguments g :
  session_closed g = true ->
  network_calls (snd (route remote name arguments g)) = network_calls g
  /\ session_closed (snd (route remote name arguments g)) = true.
Proof.
  intros Hclosed. pose proof (acquired_closed g Hclosed) as Hstate.
  unfold route.
  destruct (String.eqb name "list_vms").
  { rewrite handle_list_vms_state, list_vms_closed by exact Hstate.
    split; [apply acquired_calls | reflexivity]. }
  destruct (String.eqb name "get_vm_info").
  { unfold bind.
    destruct (GetVMInfoParams.init arguments g) as [[params | e] g1] eqn:Hinit;
      pose proof (stateless_GetVMInfoParams arguments g) as Hg; rewrite Hinit in Hg;
      simpl in Hg; subst g1.
    - rewrite handle_get_vm_info_state, get_vm_info_closed by exact Hstate.
      split; [apply acquired_calls | reflexivity].
    - split; [reflexivity | exact Hclosed]. }
  destruct (String.eqb name "power_vm").
  { unfold bind.
    destruct (PowerVMParams.init arguments g) as [[params | e] g1] eqn:Hinit;
      pose proof (stateless_PowerVMParams arguments g) as Hg; rewrite Hinit in Hg;
      simpl in Hg; subst g1.
    - rewrite handle_power_vm_state, power_vm_closed_state by exact Hstate.
      split; [apply acquired_calls | reflexivity].
    - split; [reflexivity | exact Hclosed]. }
  split; [reflexivity | exact Hclosed].
Qed.

Lemma handle_list_vms_on_closed_session remote g :
  session_closed g = true ->
  fst (handle_list_vms remote g) = Raise closed_exn.
Proof.
  intros Hclosed. unfold handle_list_vms. rewrite get_vmware_client_run. simpl.
  erewrite bind_Raise;
    [reflexivity | apply list_vms_closed; apply acquired_closed; exact Hclosed].
Qed.

(** C2, as the code behaves. After one [list_vms] dispatch, from any state
    of the process and whatever the remote API answered, the global client
    is closed: no later dispatch, of any tool with any arguments, puts a
    request on the wire, and a second [list_vms] dispatch returns the error
    envelope of httpx's refusal to send on a closed client. *)
Theorem second_dispatch_sends_nothing
    (remote : list httpx.Request -> httpx.Request -> httpx.reply)
    (arguments1 : pydict) (name2 : string) (arguments2 : pydict) (g : globals) :
  let g1 := snd (handle_call_tool remote "list_vms" arguments1 g) in
  session_closed g1 = true
  /\ network_calls (snd (handle_call_tool remote name2 arguments2 g1)) = network_calls g1
  /\ fst (handle_call_tool remote "list_vms" arguments2 g1) =
     Return {| mcp.content :=
                 [ {| mcp.type := "text"; mcp.text := "Error: Cannot send a request, as the client has been closed." |} ];
               mcp.structuredContent := None;
               mcp.isError := true |}.
Proof.
  intros g1.
  assert (Hclosed : session_closed g1 = true).
  { unfold g1. rewrite handle_call_tool_run. simpl snd.
    change (route remote "list_vms" arguments1 g) with (handle_list_vms remote g).
    rewrite handle_list_vms_state. reflexivity. }
  split; [exact Hclosed | split].
  - rewrite handle_call_tool_run. simpl snd.
    apply (route_on_closed_session remote name2 arguments2 g1 Hclosed).
  - rewrite handle_call_tool_run. simpl fst.
    change (route remote "list_vms" arguments2 g1) with (handle_list_vms remote g1).
    rewrite (handle_list_vms_on_closed_session remote g1 Hclosed). reflexivity.
Qed.

(** Two [list_vms] dispatches in a row in a new process, against a remote
    API that is up: the first succeeds with one request, the second fails
    and the wire still holds that one request. *)
Example list_vms_twice :
  let first := handle_call_tool remote_one_vm "list_vms" [] fresh in
  let second := handle_call_tool remote_one_vm "list_vms" [] (snd first) in
  fst first =
    Return {| mcp.content :=
                [ {| mcp.type := "text"; mcp.text := ("VMware Fusion VMs:" ++ Py.nl
                   ++ "==================================================" ++ Py.nl
                   ++ "ID: vm1" ++ Py.nl
                   ++ "Path: /path/to/vm1.vmx" ++ Py.nl
                   ++ "------------------------------") |} ];
              mcp.structuredContent := Some (JDict [("vms", one_vm)]);
              mcp.isError := false |}
  /\ network_calls (snd first) =
     [ {| httpx.method := httpx.GET; httpx.url := "http://localhost:8697/fusionsvc/vms" |} ]
  /\ fst second =
     Return {| mcp.content :=
                 [ {| mcp.type := "text"; mcp.text := "Error: Cannot send a request, as the client has been closed." |} ];
               mcp.structuredContent := None;
               mcp.isError := true |}
  /\ network_calls (snd second) = network_calls (snd first).
Proof. repeat split; reflexivity. Qed.

(** ** The envelope of [list_vms] *)

Example separator_lengths :
  String.length "==================================================" = 50
  /\ String.length "------------------------------" = 30.
Proof. split; reflexivity. Qed.

Lemma list_vms_loop_dicts (S : Type) (vms : list pydict) (lines : list string) (s : S) :
  list_vms_loop (map JDict vms) lines s =
  (Return (lines ++ flat_map spec_vm_lines vms)%list, s).
Proof.
  revert lines. induction vms as [| vm rest IH]; intros lines.
  - simpl. rewrite app_nil_r. reflexivity.
  - change (list_vms_loop (map JDict (vm :: rest)) lines s)
      with (list_vms_loop (map JDict rest)
              (Py.append
                 (Py.append
                    (Py.append lines
                       ("ID: " ++ Py.str (Py.dict_get_default vm "id" (JStr "Unknown"))))
                    ("Path: " ++ Py.str (Py.dict_get_default vm "path" (JStr "Unknown"))))
                 (Py.str_mul "-" 30)) s).
    rewrite IH. unfold Py.append. rewrite <- !app_assoc.
    change (flat_map spec_vm_lines (vm :: rest))
      with (spec_vm_lines vm ++ flat_map spec_vm_lines rest)%list.
    unfold spec_vm_lines, spec_field, Py.dict_get_default.
    destruct (Py.dict_get vm "id") as [[] |], (Py.dict_get vm "path") as [[] |];
      reflexivity.
Qed.

Lemma is_success_range r :
  (200 <= httpx.status_code r <= 299)%Z -> is_success r = true.
Proof.
  intros [Hlo Hhi]. unfold is_success.
  apply andb_true_iff; split; apply Z.leb_le; assumption.
Qed.

(** C8. When the global client is not closed and the remote API answers
    the GET on [{base_url}/fusionsvc/vms] with a 2xx status and a JSON array
    [vms] of mappings, the [list_vms] dispatch returns, with no error flag,
    exactly one text block and: for an empty array the text
    ["No VMs found in VMware Fusion."] and the structured content
    [{vms: []}]; otherwise the header line, the line of 50 [=], and per VM
    the lines ["ID: {id}"], ["Path: {path}"] (the field's own text when it
    is a string, ["Unknown"] when it is absent) and the line of 30 [-],
    joined by newlines, with the structured content
    [{vms: <the array>}]. *)
Theorem list_vms_envelope
    (remote : list httpx.Request -> httpx.Request -> httpx.reply)
    (arguments : pydict) (g : globals) (r : httpx.Response) (vms : list pydict) :
  session_closed g = false ->
  remote (network_calls g) (list_vms_request g) = httpx.Responded r ->
  (200 <= httpx.status_code r <= 299)%Z ->
  httpx.body r = httpx.Decoded (JList (map JDict vms)) ->
  fst (handle_call_tool remote "list_vms" arguments g) =
    Return {| mcp.content :=
                [ {| mcp.type := "text"; mcp.text := spec_list_vms_text vms |} ];
              mcp.structuredContent := Some (JDict [("vms", JList (map JDict vms))]);
              mcp.isError := false |}.
Proof.
  intros Hopen Hreply Hstatus Hbody.
  apply acquired_state in Hopen.
  unfold list_vms_request in Hreply.
  rewrite <- acquired_calls, <- acquired_base_url in Hreply.
  rewrite handle_call_tool_run. simpl fst.
  change (route remote "list_vms" arguments g) with (handle_list_vms remote g).
  unfold handle_list_vms. rewrite get_vmware_client_run. simpl fst.
  assert (Hvms : list_vms remote (acquired g) =
                 (Return (JList (map JDict vms)),
                  after_request (acquired g) (list_request (acquired g)))).
  { rewrite list_vms_run by exact Hopen. unfold list_request at 1. rewrite Hreply.
    rewrite (is_success_range _ Hstatus). unfold decoded_body. rewrite Hbody. reflexivity. }
  erewrite bind_Return by exact Hvms.
  destruct vms as [| vm rest].
  - reflexivity.
  - change (Py.truthy (JList (map JDict (vm :: rest)))) with true.
    change (negb true) with false. cbv iota.
    unfold bind at 1. unfold bind at 1. unfold iter, ret at 1.
    unfold bind at 1. rewrite list_vms_loop_dicts. reflexivity.
Qed.

Lemma list_vms_envelope_witness :
  fst (handle_call_tool remote_two_vms "list_vms" [] fresh) =
    Return {| mcp.content :=
                [ {| mcp.type := "text";
                     mcp.text :=
                       String.concat (String (ascii_of_nat 10) EmptyString)
                         [ "VMware Fusion VMs:";
                           "==================================================";
                           "ID: vm1";
                           "Path: /path/to/vm1.vmx";
                           "------------------------------";
                           "ID: vm2";
                           "Path: Unknown";
                           "------------------------------" ] |} ];
              mcp.structuredContent :=
                Some (JDict
                        [("vms",
                          JList [JDict [("id", JStr "vm1"); ("path", JStr "/path/to/vm1.vmx")];
                                 JDict [("id", JStr "vm2")]])]);
              mcp.isError := false |}.
Proof.
  apply (@list_vms_envelope remote_two_vms [] fresh
           (ok_with two_vms_text two_vms)
           [[("id", JStr "vm1"); ("path", JStr "/path/to/vm1.vmx")]; [("id", JStr "vm2")]]).
  - reflexivity.
  - reflexivity.
  - simpl. lia.
  - reflexivity.
Defined.

(** ** Validated parameters *)

Lemma GetVMInfoParams_init_ok (S : Type) arguments vm_id (s : S) :
  Py.dict_get arguments "vm_id" = Some (JStr vm_id) ->
  GetVMInfoParams.init arguments s = (Return {| GetVMInfoParams.vm_id := vm_id |}, s).
Proof.
  intros H. unfold GetVMInfoParams.init, pydantic.str_field. rewrite H. reflexivity.
Qed.

Lemma PowerVMParams_init_ok (S : Type) arguments vm_id action (s : S) :
  Py.dict_get arguments "vm_id" = Some (JStr vm_id) ->
  Py.dict_get arguments "action" = Some (JStr action) ->
  PowerVMParams.init arguments s =
  (Return {| PowerVMParams.vm_id := vm_id; PowerVMParams.action := action |}, s).
Proof.
  intros Hv Ha. unfold PowerVMParams.init, pydantic.str_field. rewrite Hv, Ha. reflexivity.
Qed.

Lemma route_get_vm_info remote arguments vm_id g :
  Py.dict_get arguments "vm_id" = Some (JStr vm_id) ->
  route remote "get_vm_info" arguments g = handle_get_vm_info remote vm_id g.
Proof.
  intros H.
  change (route remote "get_vm_info" arguments g)
    with (bind (GetVMInfoParams.init arguments)
            (fun params => handle_get_vm_info remote (GetVMInfoParams.vm_id params)) g).
  erewrite bind_Return by (apply GetVMInfoParams_init_ok; exact H). reflexivity.
Qed.

Lemma route_power_vm remote arguments vm_id action g :
  Py.dict_get arguments "vm_id" = Some (JStr vm_id) ->
  Py.dict_get arguments "action" = Some (JStr action) ->
  route remote "power_vm" arguments g = handle_power_vm remote vm_id action g.
Proof.
  intros Hv Ha.
  change (route remote "power_vm" arguments g)
    with (bind (PowerVMParams.init arguments)
            (fun p => handle_power_vm remote (PowerVMParams.vm_id p) (PowerVMParams.action p))
            g).
  erewrite bind_Return by (apply PowerVMParams_init_ok; eassumption). reflexivity.
Qed.

(** ** The envelope of [get_vm_info] *)

(** C9. When the arguments carry a string [vm_id], the global client is
    not closed and the remote API answers the GET on
    [{base_url}/fusionsvc/vms/{vm_id}] with a 2xx status and a JSON object
    [info] (any entries, nested or not, in any order), the [get_vm_info]
    dispatch succeeds and its structured content is [info] itself: the same
    entries with the same values in the same order. *)
Theorem get_vm_info_round_trip
    (remote : list httpx.Request -> httpx.Request -> httpx.reply)
    (arguments : pydict) (g : globals) (vm_id : string)
    (r : httpx.Response) (info : pydict) :
  Py.dict_get arguments "vm_id" = Some (JStr vm_id) ->
  session_closed g = false ->
  remote (network_calls g) (get_vm_info_request g vm_id) = httpx.Responded r ->
  (200 <= httpx.status_code r <= 299)%Z ->
  httpx.body r = httpx.Decoded (JDict info) ->
  fst (handle_call_tool remote "get_vm_info" arguments g) =
    Return {| mcp.content :=
                [ {| mcp.type := "text"; mcp.text := (Py.join Py.nl
                     (info_loop info
                        ["VM Information for ID: " ++ vm_id;
                         "=================================================="])) |} ];
              mcp.structuredContent := Some (JDict info);
              mcp.isError := false |}.
Proof.
  intros Harg Hopen Hreply Hstatus Hbody.
  apply acquired_state in Hopen.
  unfold get_vm_info_request in Hreply.
  rewrite <- acquired_calls, <- acquired_base_url in Hreply.
  rewrite handle_call_tool_run. simpl fst.
  rewrite (route_get_vm_info remote arguments g Harg).
  unfold handle_get_vm_info. rewrite get_vmware_client_run. simpl fst.
  assert (Hinfo : get_vm_info remote vm_id (acquired g) =
                  (Return (JDict info),
                   after_request (acquired g) (info_request (acquired g) vm_id))).
  { rewrite get_vm_info_run by exact Hopen. unfold info_request at 1. rewrite Hreply.
    rewrite (is_success_range _ Hstatus). unfold decoded_body. rewrite Hbody. reflexivity. }
  erewrite bind_Return by exact Hinfo. reflexivity.
Qed.

Lemma get_vm_info_round_trip_witness :
  fst (handle_call_tool (remote_always (ok_with vm1_detail_text (JDict vm1_detail)))
         "get_vm_info" [("vm_id", JStr "vm1")] fresh) =
    Return {| mcp.content :=
                [ {| mcp.type := "text"; mcp.text := ("VM Information for ID: vm1" ++ Py.nl
                   ++ "==================================================" ++ Py.nl
                   ++ "Id: vm1" ++ Py.nl
                   ++ "Cpu:" ++ Py.nl
                   ++ "  processors: 2" ++ Py.nl
                   ++ "Memory: 4096" ++ Py.nl
                   ++ "Tags: ['dev', None]") |} ];
              mcp.structuredContent := Some (JDict vm1_detail);
              mcp.isError := false |}.
Proof.
  apply (@get_vm_info_round_trip
           (remote_always (ok_with vm1_detail_text (JDict vm1_detail)))
           [("vm_id", JStr "vm1")] fresh "vm1"
           (ok_with vm1_detail_text (JDict vm1_detail)) vm1_detail).
  - reflexivity.
  - reflexivity.
  - reflexivity.
  - simpl. lia.
  - reflexivity.
Defined.

(** ** The envelope of [power_vm] *)

(** C7, as stated, fails: the result mapping [{status: 0}] has a [status]
    field, the dispatch succeeds, and the text carries no
    [" - Status: 0"]. *)
Lemma falsy_status_is_not_appended :
  fst (handle_call_tool (remote_always zero_status) "power_vm"
         [("vm_id", JStr "vm1"); ("action", JStr "on")] fresh) =
    Return {| mcp.content := [ {| mcp.type := "text"; mcp.text := "Successfully performed 'on' action on VM vm1" |} ];
              mcp.structuredContent := Some (JDict [("status", JInt 0)]);
              mcp.isError := false |}
  /\ Py.dict_get [("status", JInt 0)] "status" = Some (JInt 0)
  /\ "Successfully performed 'on' action on VM vm1"
     <> "Successfully performed 'on' action on VM vm1" ++ " - Status: " ++ Py.str (JInt 0).
Proof.
  split; [reflexivity | split; [reflexivity | discriminate]].
Qed.

Lemma append_empty_r (s : string) : s ++ "" = s.
Proof. induction s as [| c s IH]; simpl; [reflexivity | rewrite IH; reflexivity]. Qed.

Lemma handle_power_vm_result remote vm_id action g result self' :
  power_vm remote vm_id action (acquired g) = (Return (JDict result), self') ->
  fst (handle_power_vm remote vm_id action g) =
    Return {| mcp.content :=
                [ {| mcp.type := "text"; mcp.text := (("Successfully performed '" ++ action ++ "' action on VM " ++ vm_id)
                     ++ status_suffix result) |} ];
              mcp.structuredContent := Some (JDict result);
              mcp.isError := false |}.
Proof.
  intros Hrun. unfold handle_power_vm. rewrite get_vmware_client_run. simpl fst.
  erewrite bind_Return by exact Hrun. cbv zeta.
  unfold method_get, getitem, status_suffix, Py.dict_get_default, bind, ret.
  destruct (Py.dict_get result "status") as [status |]; simpl.
  - destruct (Py.truthy status); simpl; [reflexivity |].
    rewrite append_empty_r. reflexivity.
  - rewrite append_empty_r. reflexivity.
Qed.

(** C7, amended. On a [power_vm] dispatch with string arguments [vm_id]
    and [action], a valid action, a global client that is not closed and a
    2xx answer to the POST: when the body is empty, the structured content
    is the synthesized [{status: "success", action: action}]; when it is not
    empty and decodes to a JSON object, the structured content is that
    object unmodified. In both cases there is no error flag and the text is
    ["Successfully performed '{action}' action on VM {vm_id}"], followed by
    [" - Status: {status}"] exactly when the result mapping has a [status]
    field whose value is truthy (not null, false, zero or empty). *)
Theorem power_vm_envelope
    (remote : list httpx.Request -> httpx.Request -> httpx.reply)
    (arguments : pydict) (g : globals) (vm_id action : string) (r : httpx.Response) :
  Py.dict_get arguments "vm_id" = Some (JStr vm_id) ->
  Py.dict_get arguments "action" = Some (JStr action) ->
  In action valid_actions ->
  session_closed g = false ->
  remote (network_calls g) (power_vm_request g vm_id action) = httpx.Responded r ->
  (200 <= httpx.status_code r <= 299)%Z ->
  let performed := "Successfully performed '" ++ action ++ "' action on VM " ++ vm_id in
  (httpx.text r = "" ->
   fst (handle_call_tool remote "power_vm" arguments g) =
     Return {| mcp.content := [ {| mcp.type := "text"; mcp.text := (performed ++ " - Status: success") |} ];
               mcp.structuredContent :=
                 Some (JDict [("status", JStr "success"); ("action", JStr action)]);
               mcp.isError := false |})
  /\ (forall result,
        httpx.text r <> "" ->
        httpx.body r = httpx.Decoded (JDict result) ->
        fst (handle_call_tool remote "power_vm" arguments g) =
          Return {| mcp.content :=
                      [ {| mcp.type := "text"; mcp.text := (performed ++
                         match Py.dict_get result "status" with
                         | Some status =>
                             if Py.truthy status then " - Status: " ++ Py.str status else ""
                         | None => ""
                         end) |} ];
                    mcp.structuredContent := Some (JDict result);
                    mcp.isError := false |}).
Proof.
  intros Hv Ha Hin Hopen Hreply Hstatus performed.
  apply acquired_state in Hopen.
  unfold power_vm_request in Hreply.
  rewrite <- acquired_calls, <- acquired_base_url in Hreply.
  rewrite handle_call_tool_run. simpl fst.
  rewrite (route_power_vm remote arguments g Hv Ha).
  pose proof (power_vm_run remote vm_id (acquired g) Hin Hopen) as Hrun.
  unfold power_request at 1 in Hrun.
  rewrite Hreply, (is_success_range _ Hstatus) in Hrun.
  unfold content_nonempty in Hrun.
  split.
  - intros Hempty. rewrite Hempty in Hrun. simpl in Hrun.
    rewrite (handle_power_vm_result remote vm_id action g Hrun). reflexivity.
  - intros result Hnonempty Hbody.
    apply String.eqb_neq in Hnonempty. rewrite Hnonempty in Hrun.
    unfold decoded_body in Hrun. rewrite Hbody in Hrun. simpl in Hrun.
    rewrite (handle_power_vm_result remote vm_id action g Hrun). reflexivity.
Qed.

Lemma power_vm_envelope_witness :
  fst (handle_call_tool (remote_always empty_ok) "power_vm"
         [("vm_id", JStr "vm1"); ("action", JStr "on")] fresh) =
    Return {| mcp.content :=
                [ {| mcp.type := "text"; mcp.text := "Successfully performed 'on' action on VM vm1 - Status: success" |} ];
              mcp.structuredContent :=
                Some (JDict [("status", JStr "success"); ("action", JStr "on")]);
              mcp.isError := false |}
  /\ fst (handle_call_tool (remote_always on_status) "power_vm"
            [("vm_id", JStr "vm1"); ("action", JStr "on")] fresh) =
       Return {| mcp.content :=
                   [ {| mcp.type := "text"; mcp.text := "Successfully performed 'on' action on VM vm1 - Status: poweredOn" |} ];
                 mcp.structuredContent := Some (JDict [("status", JStr "poweredOn")]);
                 mcp.isError := false |}.
Proof.
  assert (H200 : (200 <= 200 <= 299)%Z) by lia.
  split.
  - apply (proj1 (@power_vm_envelope (remote_always empty_ok)
                    [("vm_id", JStr "vm1"); ("action", JStr "on")] fresh "vm1" "on" empty_ok
                    eq_refl eq_refl (or_introl eq_refl) eq_refl eq_refl H200)).
    reflexivity.
  - apply (proj2 (@power_vm_envelope (remote_always on_status)
                    [("vm_id", JStr "vm1"); ("action", JStr "on")] fresh "vm1" "on" on_status
                    eq_refl eq_refl (or_introl eq_refl) eq_refl eq_refl H200)
             [("status", JStr "poweredOn")]).
    + discriminate.
    + reflexivity.
Defined.

(** ** Validation of the arguments *)

Lemma str_field_inl arguments field s :
  pydantic.str_field arguments field = inl s <-> Py.dict_get arguments field = Some (JStr s).
Proof.
  unfold pydantic.str_field.
  destruct (Py.dict_get arguments field) as [[| b | n | f | t | xs | kvs] |];
    split; intros H; congruence.
Qed.

Lemma str_field_inr arguments field err :
  pydantic.str_field arguments field = inr err ->
  fst err = field /\ violates arguments field
  /\ (snd err = pydantic.missing <-> Py.dict_get arguments field = None).
Proof.
  unfold pydantic.str_field, violates.
  destruct (Py.dict_get arguments field) as [[| b | n | f | t | xs | kvs] |];
    intros H; inversion H; subst; simpl;
    (split; [reflexivity | split; [intros s; congruence | split; congruence]]).
Qed.

(** C5, as stated, fails: with the empty text as [vm_id] the dispatch is
    no error, and the GET on [{base_url}/fusionsvc/vms/] goes out. *)
Lemma empty_vm_id_is_sent :
  fst (handle_call_tool (remote_always empty_detail) "get_vm_info" [("vm_id", JStr "")] fresh) =
    Return {| mcp.content :=
                [ {| mcp.type := "text"; mcp.text := ("VM Information for ID: " ++ Py.nl
                   ++ "==================================================") |} ];
              mcp.structuredContent := Some (JDict []);
              mcp.isError := false |}
  /\ network_calls
       (snd (handle_call_tool (remote_always empty_detail) "get_vm_info"
               [("vm_id", JStr "")] fresh)) =
     [ {| httpx.method := httpx.GET;
          httpx.url := "http://localhost:8697/fusionsvc/vms/" |} ].
Proof. split; reflexivity. Qed.

Lemma str_field_cases arguments field :
  (exists s, pydantic.str_field arguments field = inl s
             /\ Py.dict_get arguments field = Some (JStr s))
  \/ (pydantic.str_field arguments field = inr (field, pydantic.missing)
      /\ Py.dict_get arguments field = None)
  \/ (pydantic.str_field arguments field = inr (field, pydantic.string_type)
      /\ violates arguments field
      /\ exists v, Py.dict_get arguments field = Some v).
Proof.
  unfold pydantic.str_field, violates.
  destruct (Py.dict_get arguments field) as [[| b | n | f | t | xs | kvs] |].
  all: try (right; right; split; [reflexivity | split; [intros s; congruence |]];
            eexists; reflexivity).
  - left. eexists. split; reflexivity.
  - right. left. split; reflexivity.
Qed.

Lemma get_vm_info_rejected remote arguments g err :
  pydantic.str_field arguments "vm_id" = inr err ->
  handle_call_tool remote "get_vm_info" arguments g =
  (Return (error_result (pydantic.validation_error "GetVMInfoParams" [err])), g).
Proof.
  intros Hfield. unfold handle_call_tool, try_except.
  change (route remote "get_vm_info" arguments g)
    with (bind (GetVMInfoParams.init arguments)
            (fun params => handle_get_vm_info remote (GetVMInfoParams.vm_id params)) g).
  unfold bind, GetVMInfoParams.init. rewrite Hfield. reflexivity.
Qed.

Lemma power_vm_rejected remote arguments g errors :
  PowerVMParams.init arguments g =
    (Raise (pydantic.validation_error "PowerVMParams" errors), g) ->
  handle_call_tool remote "power_vm" arguments g =
  (Return (error_result (pydantic.validation_error "PowerVMParams" errors)), g).
Proof.
  intros Hinit. unfold handle_call_tool, try_except.
  change (route remote "power_vm" arguments g)
    with (bind (PowerVMParams.init arguments)
            (fun p => handle_power_vm remote (PowerVMParams.vm_id p)
                        (PowerVMParams.action p)) g).
  erewrite bind_Raise by exact Hinit. reflexivity.
Qed.

(** The entries of [failing_fields] are the declared fields that fail, each
    with its kind of failure. *)
Lemma failing_fields_spec name arguments field v :
  In (field, v) (failing_fields name arguments) <->
  In field (declared_fields name)
  /\ violates arguments field
  /\ (v = pydantic.missing <-> Py.dict_get arguments field = None).
Proof.
  unfold failing_fields. rewrite in_flat_map. split.
  - intros (f & Hdeclared & Hin).
    destruct (pydantic.str_field arguments f) as [s | err] eqn:Hfield; [destruct Hin |].
    destruct Hin as [Heq | []]. subst err.
    destruct (str_field_inr _ _ Hfield) as (Hf & Hviolates & Hkind).
    simpl in Hf, Hkind. subst f. split; [exact Hdeclared | split; assumption].
  - intros (Hdeclared & Hviolates & Hkind). exists field. split; [exact Hdeclared |].
    destruct (str_field_cases arguments field)
      as [(s & _ & Hs) | [(Hfield & Hnone) | (Hfield & _ & (x & Hsome))]].
    + elim (Hviolates s Hs).
    + rewrite Hfield. left. f_equal. symmetry. apply Hkind. exact Hnone.
    + rewrite Hfield. left. f_equal. destruct v; [| reflexivity].
      assert (Hcontra : Py.dict_get arguments field = None) by (apply Hkind; reflexivity).
      congruence.
Qed.

Ltac report_facts Hv Ha :=
  unfold failing_fields, declared_fields, model_name; simpl;
  rewrite ?Hv, ?Ha; simpl.

(** C5, amended. When a field declared by the model of the named tool is
    missing from the arguments or is no string there, the dispatch returns
    an error envelope (one text block, no structured content) and leaves
    the process untouched, so no request is sent. Its text begins with
    ["Error: {n} validation error(s) for {Model}"], where [n] counts the
    declared fields that fail, and for every declared field that fails it
    holds the line with the field's name followed by the indented line
    ["Field required"] (field missing) or ["Input should be a valid string"]
    (field of another type). The empty text is a valid [vm_id]: it passes
    validation and is handed to [handle_get_vm_info]. *)
Theorem schema_violation_envelope
    (remote : list httpx.Request -> httpx.Request -> httpx.reply)
    (name : string) (arguments : pydict) (g : globals) :
  ((exists field, In field (declared_fields name) /\ violates arguments field) ->
   exists t,
     handle_call_tool remote name arguments g =
       (Return {| mcp.content := [ {| mcp.type := "text"; mcp.text := t |} ];
                  mcp.structuredContent := None;
                  mcp.isError := true |},
        g)
     /\ String.prefix
          ("Error: "
           ++ Py.str_int (Z.of_nat (length (failing_fields name arguments)))
           ++ (if Nat.eqb (length (failing_fields name arguments)) 1
               then " validation error for " else " validation errors for ")
           ++ (if String.eqb name "get_vm_info" then "GetVMInfoParams" else "PowerVMParams"))
          t = true
     /\ (forall field,
           In field (declared_fields name) -> violates arguments field ->
           occurs_in
             (String (ascii_of_nat 10) EmptyString ++ field
              ++ String (ascii_of_nat 10) EmptyString ++ "  "
              ++ match Py.dict_get arguments field with
                 | None => "Field required"
                 | Some _ => "Input should be a valid string"
                 end)
             t = true))
  /\ (forall field v,
        In (field, v) (failing_fields name arguments) <->
        In field (declared_fields name)
        /\ violates arguments field
        /\ (v = pydantic.missing <-> Py.dict_get arguments field = None))
  /\ (Py.dict_get arguments "vm_id" = Some (JStr "") ->
      route remote "get_vm_info" arguments g = handle_get_vm_info remote "" g).
Proof.
  split; [| split; [intros field v; apply failing_fields_spec | apply route_get_vm_info]].
  intros (field0 & Hdeclared & Hviolates0).
  destruct (String.eqb_spec name "get_vm_info") as [-> | Hinfo].
  - assert (H0 : field0 = "vm_id") by (destruct Hdeclared as [<- | []]; reflexivity).
    subst field0.
    destruct (str_field_cases arguments "vm_id")
      as [(s & _ & Hs) | [(Hv & Hget) | (Hv & _ & (x & Hget))]].
    + elim (Hviolates0 s Hs).
    + rewrite (get_vm_info_rejected remote arguments g Hv).
      eexists. split; [reflexivity |]. split; [report_facts Hv Hv; reflexivity |].
      intros field [<- | []] _. rewrite Hget. reflexivity.
    + rewrite (get_vm_info_rejected remote arguments g Hv).
      eexists. split; [reflexivity |]. split; [report_facts Hv Hv; reflexivity |].
      intros field [<- | []] _. rewrite Hget. reflexivity.
  - destruct (String.eqb_spec name "power_vm") as [-> | Hpower].
    2: { unfold declared_fields in Hdeclared.
         apply String.eqb_neq in Hinfo, Hpower. rewrite Hinfo, Hpower in Hdeclared.
         destruct Hdeclared. }
    destruct (str_field_cases arguments "vm_id")
      as [(s1 & Hv & Hs1) | [(Hv & Hget1) | (Hv & Hviol1 & (x1 & Hget1))]];
      destruct (str_field_cases arguments "action")
        as [(s2 & Ha & Hs2) | [(Ha & Hget2) | (Ha & Hviol2 & (x2 & Hget2))]].
    1: { destruct Hdeclared as [<- | [<- | []]];
           [elim (Hviolates0 s1 Hs1) | elim (Hviolates0 s2 Hs2)]. }
    all: erewrite power_vm_rejected
      by (unfold PowerVMParams.init; rewrite Hv, Ha; reflexivity).
    all: eexists; split; [reflexivity |]; split; [report_facts Hv Ha; reflexivity |].
    all: intros field [<- | [<- | []]] Hviolates;
      try (rewrite Hget1; reflexivity); try (rewrite Hget2; reflexivity).
    all: try (elim (Hviolates s1 Hs1)); try (elim (Hviolates s2 Hs2)).
Qed.

Lemma schema_violation_envelope_witness :
  (exists t,
     handle_call_tool remote_down "power_vm" [("vm_id", JInt 3)] fresh =
       (Return {| mcp.content := [ {| mcp.type := "text"; mcp.text := t |} ];
                  mcp.structuredContent := None;
                  mcp.isError := true |},
        fresh)
     /\ String.prefix "Error: 2 validation errors for PowerVMParams" t = true
     /\ (forall field,
           In field (declared_fields "power_vm") -> violates [("vm_id", JInt 3)] field ->
           occurs_in
             (String (ascii_of_nat 10) EmptyString ++ field
              ++ String (ascii_of_nat 10) EmptyString ++ "  "
              ++ match Py.dict_get [("vm_id", JInt 3)] field with
                 | None => "Field required"
                 | Some _ => "Input should be a valid string"
                 end)
             t = true))
  /\ route (remote_always empty_detail) "get_vm_info" [("vm_id", JStr "")] fresh =
     handle_get_vm_info (remote_always empty_detail) "" fresh.
Proof.
  split.
  - apply (proj1 (schema_violation_envelope remote_down "power_vm" [("vm_id", JInt 3)] fresh)).
    exists "vm_id". split.
    + simpl. left. reflexivity.
    + intros s. simpl. discriminate.
  - apply (proj2 (proj2 (schema_violation_envelope (remote_always empty_detail) "get_vm_info"
                           [("vm_id", JStr "")] fresh))).
    reflexivity.
Defined.

(** What the report of the witness holds. *)
Example wrong_type_and_missing_report :
  exists t,
    fst (handle_call_tool remote_down "power_vm" [("vm_id", JInt 3)] fresh) =
      Return {| mcp.content := [ {| mcp.type := "text"; mcp.text := t |} ];
                mcp.structuredContent := None;
                mcp.isError := true |}
    /\ String.prefix "Error: 2 validation errors for PowerVMParams" t = true
    /\ occurs_in
         (String (ascii_of_nat 10) "vm_id"
          ++ String (ascii_of_nat 10) "  Input should be a valid string") t = true
    /\ occurs_in
         (String (ascii_of_nat 10) "action"
          ++ String (ascii_of_nat 10) "  Field required") t = true.
Proof. eexists. repeat split. Qed.

(** ** Undeclared arguments *)






(** ** Further facts about [power_vm] dispatches *)

(** X17. An action outside the valid set reaches [power_vm] (the model
    accepts any string) and is refused there: an error envelope, nothing
    sent. *)
Lemma invalid_action_dispatch remote arguments vm_id action g :
  Py.dict_get arguments "vm_id" = Some (JStr vm_id) ->
  Py.dict_get arguments "action" = Some (JStr action) ->
  ~ In action valid_actions ->
  fst (handle_call_tool remote "power_vm" arguments g) =
    Return {| mcp.content :=
                [ {| mcp.type := "text"; mcp.text := ("Error: Invalid action '" ++ action
                   ++ "'. Valid actions: ['on', 'off', 'suspend', 'pause', 'unpause', 'reset']") |} ];
              mcp.structuredContent := None;
              mcp.isError := true |}
  /\ network_calls (snd (handle_call_tool remote "power_vm" arguments g)) = network_calls g.
Proof.
  intros Hv Ha Hinvalid.
  rewrite handle_call_tool_run. simpl fst. simpl snd.
  rewrite (route_power_vm remote arguments g Hv Ha).
  rewrite handle_power_vm_state.
  unfold handle_power_vm. rewrite get_vmware_client_run. simpl fst.
  pose proof (power_vm_invalid remote vm_id (acquired g) Hinvalid) as Hrun.
  erewrite bind_Raise by exact Hrun. rewrite Hrun. split; [reflexivity |].
  apply acquired_calls.
Qed.

(** When [power_vm] returns, the action was valid, the client was not
    closed, and the remote API answered the POST with a 2xx status and
    either an empty body or a body that decodes to the value returned. *)
Lemma power_vm_Return_inv remote vm_id action self result self' :
  power_vm remote vm_id action self = (Return result, self') ->
  In action valid_actions
  /\ httpx.state (_client self) <> httpx.CLOSED
  /\ exists r,
       remote (httpx.calls (_client self)) (power_request self vm_id action) = httpx.Responded r
       /\ is_success r = true
       /\ ((httpx.text r = ""
            /\ result = JDict [("status", JStr "success"); ("action", JStr action)])
           \/ (httpx.text r <> "" /\ httpx.body r = httpx.Decoded result)).
Proof.
  intros Hrun.
  destruct (Py.str_in action valid_actions) eqn:Hin.
  2: { apply str_in_not_In in Hin. rewrite power_vm_invalid in Hrun by exact Hin.
       discriminate Hrun. }
  apply str_in_In in Hin. split; [exact Hin |].
  assert (Hopen : httpx.state (_client self) <> httpx.CLOSED).
  { intros Hclosed. rewrite power_vm_closed in Hrun by assumption. discriminate Hrun. }
  split; [exact Hopen |].
  rewrite power_vm_run in Hrun by assumption.
  destruct (remote (httpx.calls (_client self)) (power_request self vm_id action)) as [msg | r];
    [discriminate Hrun |].
  exists r. split; [reflexivity |].
  destruct (is_success r); [split; [reflexivity |] |].
  - unfold content_nonempty in Hrun.
    destruct (String.eqb_spec (httpx.text r) "") as [Hempty | Hnonempty]; simpl in Hrun.
    + left. split; [exact Hempty | congruence].
    + right. split; [exact Hnonempty |].
      unfold decoded_body in Hrun. destruct (httpx.body r); congruence.
  - destruct (httpx.status_code r =? 404)%Z; discriminate Hrun.
Qed.

(** X18. Every [power_vm] dispatch that is no error went that way: string
    arguments, a valid action, a client that was not closed, a 2xx answer,
    and a result that is a mapping. *)
Lemma power_vm_success_inv remote arguments g res g' :
  handle_call_tool remote "power_vm" arguments g = (Return res, g') ->
  mcp.isError res = false ->
  exists vm_id action r,
    Py.dict_get arguments "vm_id" = Some (JStr vm_id)
    /\ Py.dict_get arguments "action" = Some (JStr action)
    /\ In action valid_actions
    /\ session_closed g = false
    /\ remote (network_calls g) (power_vm_request g vm_id action) = httpx.Responded r
    /\ (200 <= httpx.status_code r <= 299)%Z
    /\ (httpx.text r = "" \/ exists result, httpx.text r <> ""
                                            /\ httpx.body r = httpx.Decoded (JDict result)).
Proof.
  rewrite handle_call_tool_run. intros Hrun Hok. inversion Hrun as [[Hres Hg]]. clear Hrun Hg.
  destruct (route remote "power_vm" arguments g) as [[a | e] g1] eqn:Hroute;
    simpl in Hres; subst res; [| discriminate Hok].
  change (route remote "power_vm" arguments g)
    with (bind (PowerVMParams.init arguments)
            (fun p => handle_power_vm remote (PowerVMParams.vm_id p) (PowerVMParams.action p))
            g) in Hroute.
  apply bind_Return_inv in Hroute. destruct Hroute as (params & g0 & Hinit & Hhandle).
  unfold PowerVMParams.init in Hinit.
  destruct (pydantic.str_field arguments "vm_id") as [vm_id | e1] eqn:Hv;
    destruct (pydantic.str_field arguments "action") as [action | e2] eqn:Ha;
    try discriminate Hinit.
  inversion Hinit; subst params g0. clear Hinit. simpl in Hhandle.
  apply str_field_inl in Hv, Ha.
  unfold handle_power_vm in Hhandle. rewrite get_vmware_client_run in Hhandle.
  inversion Hhandle as [[Hfst Hsnd]]. clear Hhandle Hsnd.
  apply fst_eq_pair in Hfst. apply bind_Return_inv in Hfst.
  destruct Hfst as (result & self' & Hpower & Hrest).
  apply power_vm_Return_inv in Hpower.
  destruct Hpower as (Hin & Hopen & r & Hreply & Hsuccess & Hbody).
  exists vm_id, action, r.
  rewrite acquired_calls in Hreply. unfold power_request in Hreply.
  rewrite acquired_base_url in Hreply.
  repeat split; try assumption.
  - apply acquired_state. exact Hopen.
  - unfold is_success in Hsuccess. apply andb_true_iff in Hsuccess.
    apply Z.leb_le. apply Hsuccess.
  - unfold is_success in Hsuccess. apply andb_true_iff in Hsuccess.
    apply Z.leb_le. apply Hsuccess.
  - destruct Hbody as [[Hempty _] | [Hnonempty Hdecoded]]; [left; exact Hempty | right].
    cbv zeta in Hrest. apply bind_Return_inv in Hrest.
    destruct Hrest as (status & s2 & Hget & _).
    destruct result; try discriminate Hget.
    eexists. split; [exact Hnonempty | exact Hdecoded].
Qed.

(** ** Transport failures *)

(** The remote API cannot be reached: the envelope says so. *)
Example list_vms_connection_failure :
  fst (handle_call_tool remote_down "list_vms" [] fresh) =
    Return {| mcp.content :=
                [ {| mcp.type := "text"; mcp.text := "Error: Failed to connect to VMware Fusion API: All connection attempts failed" |} ];
              mcp.structuredContent := None;
              mcp.isError := true |}.
Proof. reflexivity. Qed.

(** * Further properties of the client *)

(** ** [VMwareClient.__init__] *)

Lemma rstrip_slash_no_trailing s : ends_with_slash (Py.rstrip_slash s) = false.
Proof.
  induction s as [| c rest IH]; [reflexivity |].
  simpl Py.rstrip_slash.
  destruct (Py.rstrip_slash rest) as [| a r] eqn:Hrest.
  - destruct (Ascii.eqb c "/") eqn:Hc; [reflexivity | simpl; exact Hc].
  - exact IH.
Qed.

Lemma rstrip_slash_decompose s :
  exists n, s = Py.rstrip_slash s ++ Py.str_mul "/" n.
Proof.
  induction s as [| c rest [n IH]].
  - exists 0. reflexivity.
  - simpl Py.rstrip_slash.
    destruct (Py.rstrip_slash rest) as [| a r] eqn:Hrest.
    + destruct (Ascii.eqb_spec c "/") as [-> | Hc].
      * exists (S n). simpl. simpl in IH. rewrite <- IH. reflexivity.
      * exists n. simpl. simpl in IH. rewrite <- IH. reflexivity.
    + exists n. simpl. simpl in IH. rewrite <- IH. reflexivity.
Qed.

Lemma rstrip_slash_fixed s : ends_with_slash s = false -> Py.rstrip_slash s = s.
Proof.
  induction s as [| c rest IH]; [reflexivity |].
  intros Hends. simpl Py.rstrip_slash. destruct rest as [| a r].
  - simpl in *. rewrite Hends. reflexivity.
  - rewrite (IH Hends). reflexivity.
Qed.

(** X1. A client built from any [base_url] stores it without its trailing
    slashes: the stored text does not end in a slash, the argument is the
    stored text followed by slashes only, and building a client from the
    stored text stores it again as it is. The credentials are stored
    unchanged, and the client starts unopened with nothing sent. *)
Theorem VMwareClient_init_normalizes (url user pass : string) :
  ends_with_slash (base_url (VMwareClient_init url user pass)) = false
  /\ (exists n, url = base_url (VMwareClient_init url user pass) ++ Py.str_mul "/" n)
  /\ base_url (VMwareClient_init (base_url (VMwareClient_init url user pass)) user pass)
     = base_url (VMwareClient_init url user pass)
  /\ username (VMwareClient_init url user pass) = user
  /\ password (VMwareClient_init url user pass) = pass
  /\ _client (VMwareClient_init url user pass)
     = {| httpx.state := httpx.UNOPENED; httpx.calls := [] |}.
Proof.
  simpl. split; [apply rstrip_slash_no_trailing |].
  split; [apply rstrip_slash_decompose |].
  split; [apply rstrip_slash_fixed, rstrip_slash_no_trailing |].
  repeat split.
Qed.

Example init_strips_slashes :
  base_url (VMwareClient_init "http://fusion.local:8697///" "user" "pass")
  = "http://fusion.local:8697".
Proof. reflexivity. Qed.

(** ** Failures of the transport and of the decoder *)

(** X2. On a client that is not closed, when the transport fails with the
    description [msg], each of the three methods raises
    [Exception("Failed to connect to VMware Fusion API: {msg}")]; the one
    request it tried stays on the record and the client counts as open. *)
Theorem transport_failure_messages
    (remote : list httpx.Request -> httpx.Request -> httpx.reply)
    (self : VMwareClient) (vm_id action msg : string) :
  httpx.state (_client self) <> httpx.CLOSED ->
  (remote (httpx.calls (_client self)) (list_request self) = httpx.TransportFailure msg ->
   list_vms remote self =
     (Raise (PyExc Exception_ ("Failed to connect to VMware Fusion API: " ++ msg)),
      after_request self (list_request self)))
  /\ (remote (httpx.calls (_client self)) (info_request self vm_id)
      = httpx.TransportFailure msg ->
      get_vm_info remote vm_id self =
        (Raise (PyExc Exception_ ("Failed to connect to VMware Fusion API: " ++ msg)),
         after_request self (info_request self vm_id)))
  /\ (In action valid_actions ->
      remote (httpx.calls (_client self)) (power_request self vm_id action)
      = httpx.TransportFailure msg ->
      power_vm remote vm_id action self =
        (Raise (PyExc Exception_ ("Failed to connect to VMware Fusion API: " ++ msg)),
         after_request self (power_request self vm_id action))).
Proof.
  intros Hopen. repeat split.
  - intros Hreply. rewrite list_vms_run by exact Hopen. rewrite Hreply. reflexivity.
  - intros Hreply. rewrite get_vm_info_run by exact Hopen. rewrite Hreply. reflexivity.
  - intros Hin Hreply. rewrite power_vm_run by assumption. rewrite Hreply. reflexivity.
Qed.

Lemma transport_failure_messages_witness :
  list_vms remote_down VMwareClient_default =
    (Raise (PyExc Exception_
              "Failed to connect to VMware Fusion API: All connection attempts failed"),
     after_request VMwareClient_default (list_request VMwareClient_default))
  /\ get_vm_info remote_down "vm1" VMwareClient_default =
       (Raise (PyExc Exception_
                 "Failed to connect to VMware Fusion API: All connection attempts failed"),
        after_request VMwareClient_default (info_request VMwareClient_default "vm1"))
  /\ power_vm remote_down "vm1" "reset" VMwareClient_default =
       (Raise (PyExc Exception_
                 "Failed to connect to VMware Fusion API: All connection attempts failed"),
        after_request VMwareClient_default (power_request VMwareClient_default "vm1" "reset")).
Proof.
  assert (Hopen : httpx.state (_client VMwareClient_default) <> httpx.CLOSED)
    by (simpl; discriminate).
  pose proof (@transport_failure_messages remote_down VMwareClient_default "vm1" "reset"
                "All connection attempts failed" Hopen) as (Hlist & Hinfo & Hpower).
  split; [exact (Hlist eq_refl) | split; [exact (Hinfo eq_refl) |]].
  apply Hpower; [simpl; auto 10 | reflexivity].
Defined.

(** X3. On a client that is not closed, a 2xx response whose body is no
    JSON makes [list_vms] and [get_vm_info] raise the decoder's own error,
    which no [except] clause of the methods rewrites; [power_vm] does the
    same when the body is not empty, and returns the synthesized mapping
    when it is. An empty 2xx body is thus an error for the two GET methods
    and a success for [power_vm]. *)
Theorem undecodable_body
    (remote : list httpx.Request -> httpx.Request -> httpx.reply)
    (self : VMwareClient) (vm_id action : string) (r : httpx.Response) (msg : string) :
  httpx.state (_client self) <> httpx.CLOSED ->
  (200 <= httpx.status_code r <= 299)%Z ->
  httpx.body r = httpx.Malformed msg ->
  (remote (httpx.calls (_client self)) (list_request self) = httpx.Responded r ->
   fst (list_vms remote self) = Raise (PyExc JSONDecodeError msg))
  /\ (remote (httpx.calls (_client self)) (info_request self vm_id) = httpx.Responded r ->
      fst (get_vm_info remote vm_id self) = Raise (PyExc JSONDecodeError msg))
  /\ (In action valid_actions ->
      remote (httpx.calls (_client self)) (power_request self vm_id action)
      = httpx.Responded r ->
      fst (power_vm remote vm_id action self) =
        if String.eqb (httpx.text r) ""
        then Return (JDict [("status", JStr "success"); ("action", JStr action)])
        else Raise (PyExc JSONDecodeError msg)).
Proof.
  intros Hopen Hstatus Hbody. apply is_success_range in Hstatus. repeat split.
  - intros Hreply. rewrite list_vms_run by exact Hopen. rewrite Hreply, Hstatus.
    unfold decoded_body. rewrite Hbody. reflexivity.
  - intros Hreply. rewrite get_vm_info_run by exact Hopen. rewrite Hreply, Hstatus.
    unfold decoded_body. rewrite Hbody. reflexivity.
  - intros Hin Hreply. rewrite power_vm_run by assumption. rewrite Hreply, Hstatus.
    unfold content_nonempty, decoded_body. rewrite Hbody.
    destruct (String.eqb (httpx.text r) ""); reflexivity.
Qed.

Lemma undecodable_body_witness :
  fst (list_vms (remote_always empty_ok) VMwareClient_default)
  = Raise (PyExc JSONDecodeError "Expecting value: line 1 column 1 (char 0)")
  /\ fst (get_vm_info (remote_always empty_ok) "vm1" VMwareClient_default)
     = Raise (PyExc JSONDecodeError "Expecting value: line 1 column 1 (char 0)")
  /\ fst (power_vm (remote_always empty_ok) "vm1" "pause" VMwareClient_default)
     = Return (JDict [("status", JStr "success"); ("action", JStr "pause")]).
Proof.
  assert (Hopen : httpx.state (_client VMwareClient_default) <> httpx.CLOSED)
    by (simpl; discriminate).
  assert (H200 : (200 <= httpx.status_code empty_ok <= 299)%Z) by (simpl; lia).
  pose proof (@undecodable_body (remote_always empty_ok) VMwareClient_default "vm1" "pause"
                empty_ok "Expecting value: line 1 column 1 (char 0)" Hopen H200 eq_refl)
    as (Hlist & Hinfo & Hpower).
  split; [exact (Hlist eq_refl) | split; [exact (Hinfo eq_refl) |]].
  apply Hpower; [simpl; auto 10 | reflexivity].
Defined.

(** ** What a method call does to its client *)

Lemma method_effect_same self request : method_effect self self request.
Proof. unfold method_effect. repeat split. left. split; reflexivity. Qed.

Lemma method_effect_sent self request :
  httpx.state (_client self) <> httpx.CLOSED ->
  method_effect self (after_request self request) request.
Proof. intros Hopen. unfold method_effect. repeat split. right. repeat split. exact Hopen. Qed.

Lemma list_vms_effect remote self :
  method_effect self (snd (list_vms remote self)) (list_request self).
Proof.
  destruct (state_closed_dec (_client self)) as [Hclosed | Hopen].
  - rewrite list_vms_closed by exact Hclosed. apply method_effect_same.
  - rewrite list_vms_run by exact Hopen. apply method_effect_sent. exact Hopen.
Qed.

Lemma get_vm_info_effect remote vm_id self :
  method_effect self (snd (get_vm_info remote vm_id self)) (info_request self vm_id).
Proof.
  destruct (state_closed_dec (_client self)) as [Hclosed | Hopen].
  - rewrite get_vm_info_closed by exact Hclosed. apply method_effect_same.
  - rewrite get_vm_info_run by exact Hopen. apply method_effect_sent. exact Hopen.
Qed.

Lemma power_vm_effect remote vm_id action self :
  method_effect self (snd (power_vm remote vm_id action self))
    (power_request self vm_id action).
Proof.
  destruct (state_closed_dec (_client self)) as [Hclosed | Hopen].
  - rewrite power_vm_closed_state by exact Hclosed. apply method_effect_same.
  - destruct (Py.str_in action valid_actions) eqn:Hin.
    + apply str_in_In in Hin. rewrite power_vm_run by assumption.
      apply method_effect_sent. exact Hopen.
    + apply str_in_not_In in Hin. rewrite power_vm_invalid by exact Hin.
      apply method_effect_same.
Qed.

Lemma method_effect_wire self self' verb raw :
  method_effect self self' {| httpx.method := verb; httpx.url := raw |} ->
  wire_effect verb raw self self'.
Proof.
  intros (Hurl & Huser & Hpassword & [Hsame | (Hopen & Hstate & Hcalls)]).
  - repeat split; try assumption. left. exact Hsame.
  - repeat split; try assumption. right.
    split; [exact Hopen | split; [exact Hstate |]].
    exists raw. split; [exact Hcalls | reflexivity].
Qed.

(** X4. Whatever the remote API does and whatever state the client is in,
    one call of [list_vms], [get_vm_info] or [power_vm] keeps the client's
    [base_url] and credentials, never closes the client, and either sends
    nothing (leaving the life-cycle state as it was) or, on a client that
    was not closed, sends exactly one request and leaves the client open:
    a GET for [list_vms] and [get_vm_info], a POST for [power_vm], to the
    URL the method writes whenever httpx sends that URL as it is written.
    [power_vm] with an action outside the valid set is of the first
    kind. *)
Theorem methods_send_at_most_their_request
    (remote : list httpx.Request -> httpx.Request -> httpx.reply)
    (self : VMwareClient) (vm_id action : string) :
  wire_effect httpx.GET (base_url self ++ "/fusionsvc/vms")
    self (snd (list_vms remote self))
  /\ wire_effect httpx.GET (base_url self ++ "/fusionsvc/vms/" ++ vm_id)
       self (snd (get_vm_info remote vm_id self))
  /\ wire_effect httpx.POST (base_url self ++ "/fusionsvc/vms/" ++ vm_id ++ "/" ++ action)
       self (snd (power_vm remote vm_id action self))
  /\ (Py.str_in action valid_actions = false ->
      snd (power_vm remote vm_id action self) = self).
Proof.
  split; [apply method_effect_wire, list_vms_effect |].
  split; [apply method_effect_wire, get_vm_info_effect |].
  split; [apply method_effect_wire, power_vm_effect |].
  intros Hin. apply str_in_not_In in Hin. rewrite power_vm_invalid by exact Hin. reflexivity.
Qed.

Lemma methods_send_at_most_their_request_witness :
  snd (power_vm remote_down "vm1" "hibernate" VMwareClient_default) = VMwareClient_default.
Proof.
  apply (proj2 (proj2 (proj2 (methods_send_at_most_their_request remote_down
                                VMwareClient_default "vm1" "hibernate")))).
  reflexivity.
Defined.

(** The requests of the methods on the default client, on a remote API that
    is down. *)
Example methods_on_the_default_client :
  httpx.calls (_client (snd (list_vms remote_down VMwareClient_default)))
    = [ {| httpx.method := httpx.GET; httpx.url := "http://localhost:8697/fusionsvc/vms" |} ]
  /\ httpx.calls (_client (snd (get_vm_info remote_down "vm1" VMwareClient_default)))
    = [ {| httpx.method := httpx.GET;
           httpx.url := "http://localhost:8697/fusionsvc/vms/vm1" |} ]
  /\ httpx.calls (_client (snd (power_vm remote_down "vm1" "off" VMwareClient_default)))
    = [ {| httpx.method := httpx.POST;
           httpx.url := "http://localhost:8697/fusionsvc/vms/vm1/off" |} ]
  /\ sendable_as_is "http://localhost:8697/fusionsvc/vms/vm1/off" = true.
Proof. repeat split. Qed.

(** ** Leaving and re-entering the client's scope *)

Lemma async_with_run (A : Type) (body : M VMwareClient A) self :
  async_with body self = (fst (body self), released (snd (body self))).
Proof.
  unfold async_with, __aenter__, __aexit__, get_self, on_client, aclose, bind.
  destruct (body self) as [r used]. reflexivity.
Qed.

(** A handler's scope on the global client is the client's own scope. *)
Lemma get_vmware_client_async_with (A : Type) (body : M VMwareClient A) g :
  get_vmware_client body g =
  (fst (async_with body (acquired g)),
   {| vmware_client := Some (snd (async_with body (acquired g))) |}).
Proof. rewrite get_vmware_client_run, async_with_run. reflexivity. Qed.

(** X5. Leaving an [async with] block of a client closes it for good,
    whatever ran inside and whether it returned or raised: in any later
    block on the same client no method, with any arguments, changes the
    client or adds a request to the wire, and [list_vms], [get_vm_info] and
    (for a valid action) [power_vm] raise httpx's [RuntimeError] for a
    closed client whenever their URL is one httpx sends as it is written. *)
Theorem reentry_after_release
    (remote : list httpx.Request -> httpx.Request -> httpx.reply)
    (A : Type) (first : M VMwareClient A) (self : VMwareClient) (vm_id action : string) :
  httpx.state (_client (snd (async_with first self))) = httpx.CLOSED
  /\ snd (async_with (list_vms remote) (snd (async_with first self)))
     = snd (async_with first self)
  /\ snd (async_with (get_vm_info remote vm_id) (snd (async_with first self)))
     = snd (async_with first self)
  /\ snd (async_with (power_vm remote vm_id action) (snd (async_with first self)))
     = snd (async_with first self)
  /\ (sendable_as_is (base_url (snd (async_with first self)) ++ "/fusionsvc/vms") = true ->
      fst (async_with (list_vms remote) (snd (async_with first self)))
      = Raise (PyExc RuntimeError "Cannot send a request, as the client has been closed."))
  /\ (sendable_as_is (base_url (snd (async_with first self)) ++ "/fusionsvc/vms/" ++ vm_id)
      = true ->
      fst (async_with (get_vm_info remote vm_id) (snd (async_with first self)))
      = Raise (PyExc RuntimeError "Cannot send a request, as the client has been closed."))
  /\ (In action ["on"; "off"; "suspend"; "pause"; "unpause"; "reset"] ->
      sendable_as_is (base_url (snd (async_with first self))
                      ++ "/fusionsvc/vms/" ++ vm_id ++ "/" ++ action) = true ->
      fst (async_with (power_vm remote vm_id action) (snd (async_with first self)))
      = Raise (PyExc RuntimeError "Cannot send a request, as the client has been closed.")).
Proof.
  set (self1 := snd (async_with first self)).
  assert (Hclosed : httpx.state (_client self1) = httpx.CLOSED)
    by (subst self1; rewrite async_with_run; reflexivity).
  assert (Hreleased : released self1 = self1).
  { subst self1. rewrite async_with_run. reflexivity. }
  clearbody self1.
  split; [exact Hclosed |].
  rewrite !async_with_run. cbn [fst snd].
  rewrite list_vms_closed, get_vm_info_closed, power_vm_closed_state by exact Hclosed.
  cbn [fst snd]. rewrite Hreleased.
  repeat split.
  intros Hin _. rewrite power_vm_closed by assumption. reflexivity.
Qed.

Lemma reentry_after_release_witness :
  fst (async_with (power_vm remote_one_vm "vm1" "off")
         (snd (async_with (list_vms remote_one_vm) VMwareClient_default)))
  = Raise (PyExc RuntimeError "Cannot send a request, as the client has been closed.").
Proof.
  apply (proj2 (proj2 (proj2 (proj2 (proj2 (proj2
           (@reentry_after_release remote_one_vm json (list_vms remote_one_vm)
              VMwareClient_default "vm1" "off"))))))).
  - simpl. auto 10.
  - reflexivity.
Defined.

(** * Further properties of the dispatcher *)

(** ** What a dispatch does to the process *)

Lemma violates_not_valid name arguments field :
  In field (declared_fields name) -> violates arguments field ->
  ~ valid_arguments name arguments.
Proof.
  intros Hin Hviolates Hvalid. destruct (Hvalid field Hin) as (s & Hs).
  exact (Hviolates s Hs).
Qed.

(** The two ways of a dispatch: it is turned away before any handler runs,
    with the process untouched, or a handler runs one method on the global
    client inside its scope. *)
Lemma route_cases remote name arguments g :
  (snd (route remote name arguments g) = g
   /\ (~ In name catalog
       \/ exists field, In field (declared_fields name) /\ violates arguments field)
   /\ exists e, fst (route remote name arguments g) = Raise e)
  \/ (In name catalog
      /\ valid_arguments name arguments
      /\ exists self' request,
           snd (route remote name arguments g) = {| vmware_client := Some (released self') |}
           /\ method_effect (acquired g) self' request).
Proof.
  destruct (String.eqb_spec name "list_vms") as [-> | Hlist].
  { right. split; [rewrite catalog_names; simpl; auto |].
    split; [intros field [] |].
    change (route remote "list_vms" arguments g) with (handle_list_vms remote g).
    rewrite handle_list_vms_state. eexists; eexists; split; [reflexivity |].
    apply list_vms_effect. }
  destruct (String.eqb_spec name "get_vm_info") as [-> | Hinfo].
  { destruct (pydantic.str_field arguments "vm_id") as [vm_id | err] eqn:Hfield.
    - right. apply str_field_inl in Hfield.
      split; [rewrite catalog_names; simpl; auto |].
      split; [intros field [<- | []]; eexists; exact Hfield |].
      rewrite (route_get_vm_info remote arguments g Hfield), handle_get_vm_info_state.
      eexists; eexists; split; [reflexivity |]. apply get_vm_info_effect.
    - left.
      destruct (str_field_inr _ _ Hfield) as (_ & Hviolates & _).
      change (route remote "get_vm_info" arguments g)
        with (bind (GetVMInfoParams.init arguments)
                (fun params => handle_get_vm_info remote (GetVMInfoParams.vm_id params)) g).
      unfold bind, GetVMInfoParams.init. rewrite Hfield. simpl.
      split; [reflexivity | split; [| eexists; reflexivity]].
      right. exists "vm_id". split; [simpl; auto | exact Hviolates]. }
  destruct (String.eqb_spec name "power_vm") as [-> | Hpower].
  { destruct (pydantic.str_field arguments "vm_id") as [vm_id | e1] eqn:Hv;
      destruct (pydantic.str_field arguments "action") as [action | e2] eqn:Ha.
    - right. apply str_field_inl in Hv, Ha.
      split; [rewrite catalog_names; simpl; auto |].
      split; [intros field [<- | [<- | []]]; eexists; eassumption |].
      rewrite (route_power_vm remote arguments g Hv Ha), handle_power_vm_state.
      eexists; eexists; split; [reflexivity |]. apply power_vm_effect.
    - left. destruct (str_field_inr _ _ Ha) as (_ & Hviolates & _).
      change (route remote "power_vm" arguments g)
        with (bind (PowerVMParams.init arguments)
                (fun p => handle_power_vm remote (PowerVMParams.vm_id p)
                            (PowerVMParams.action p)) g).
      unfold bind, PowerVMParams.init. rewrite Hv, Ha. simpl.
      split; [reflexivity | split; [| eexists; reflexivity]].
      right. exists "action". split; [simpl; auto | exact Hviolates].
    - left. destruct (str_field_inr _ _ Hv) as (_ & Hviolates & _).
      change (route remote "power_vm" arguments g)
        with (bind (PowerVMParams.init arguments)
                (fun p => handle_power_vm remote (PowerVMParams.vm_id p)
                            (PowerVMParams.action p)) g).
      unfold bind, PowerVMParams.init. rewrite Hv, Ha. simpl.
      split; [reflexivity | split; [| eexists; reflexivity]].
      right. exists "vm_id". split; [simpl; auto | exact Hviolates].
    - left. destruct (str_field_inr _ _ Hv) as (_ & Hviolates & _).
      change (route remote "power_vm" arguments g)
        with (bind (PowerVMParams.init arguments)
                (fun p => handle_power_vm remote (PowerVMParams.vm_id p)
                            (PowerVMParams.action p)) g).
      unfold bind, PowerVMParams.init. rewrite Hv, Ha. simpl.
      split; [reflexivity | split; [| eexists; reflexivity]].
      right. exists "vm_id". split; [simpl; auto | exact Hviolates]. }
  left.
  assert (Hname : ~ In name catalog).
  { rewrite catalog_names. simpl. intros [H | [H | [H | []]]]; congruence. }
  unfold route.
  apply String.eqb_neq in Hlist, Hinfo, Hpower. rewrite Hlist, Hinfo, Hpower. simpl.
  split; [reflexivity | split; [left; exact Hname | eexists; reflexivity]].
Qed.

(** X6. Every dispatch, of any name with any arguments, from any state of
    the process: adds at most one request to the wire and removes none;
    keeps the base URL the process talks to; never drops the global client
    once there is one; and leaves a closed client closed. *)
Theorem dispatch_sends_at_most_one_request
    (remote : list httpx.Request -> httpx.Request -> httpx.reply)
    (name : string) (arguments : pydict) (g : globals) :
  (exists sent,
     length sent <= 1
     /\ network_calls (snd (handle_call_tool remote name arguments g))
        = (network_calls g ++ sent)%list)
  /\ session_base_url (snd (handle_call_tool remote name arguments g)) = session_base_url g
  /\ (vmware_client (snd (handle_call_tool remote name arguments g)) = None
      <-> vmware_client g = None
          /\ snd (handle_call_tool remote name arguments g) = g)
  /\ (session_closed g = true ->
      session_closed (snd (handle_call_tool remote name arguments g)) = true).
Proof.
  rewrite handle_call_tool_run. simpl snd.
  destruct (route_cases remote name arguments g)
    as [(Hsame & _ & _) | (_ & _ & self' & request & Hstate & Heffect)].
  - rewrite Hsame. split; [exists []; split; [simpl; lia | rewrite app_nil_r; reflexivity] |].
    split; [reflexivity |]. split; [| auto].
    split; [intros H; split; [exact H | reflexivity] | intros [H _]; exact H].
  - rewrite Hstate.
    destruct Heffect as (Hurl & _ & _ & Hsent).
    split; [| split; [| split]].
    + unfold network_calls at 1. simpl. rewrite <- acquired_calls.
      destruct Hsent as [[Hcalls _] | (_ & _ & Hcalls)]; rewrite Hcalls.
      * exists []. split; [simpl; lia | rewrite app_nil_r; reflexivity].
      * exists [request]. split; [simpl; lia | reflexivity].
    + unfold session_base_url at 1. simpl. rewrite Hurl. apply acquired_base_url.
    + simpl. split; [discriminate |]. intros [Hnone Heq]. rewrite <- Heq in Hnone.
      discriminate Hnone.
    + intros _. reflexivity.
Qed.

(** X7. A dispatch of a catalog tool whose declared fields are all strings
    in the arguments leaves the global client closed, whether the call
    succeeded or failed; a dispatch of an unknown name, or with a declared
    field missing or not a string, leaves the process exactly as it was. *)
Theorem dispatch_session_effect
    (remote : list httpx.Request -> httpx.Request -> httpx.reply)
    (name : string) (arguments : pydict) (g : globals) :
  (In name catalog -> valid_arguments name arguments ->
   session_closed (snd (handle_call_tool remote name arguments g)) = true)
  /\ (~ In name catalog
      \/ (exists field, In field (declared_fields name) /\ violates arguments field) ->
      snd (handle_call_tool remote name arguments g) = g).
Proof.
  rewrite handle_call_tool_run. simpl snd.
  destruct (route_cases remote name arguments g)
    as [(Hsame & Hwhy & _) | (Hname & Hvalid & self' & request & Hstate & _)].
  - split; [| intros _; exact Hsame].
    intros Hname Hvalid. exfalso. destruct Hwhy as [Hnot | (field & Hin & Hviolates)].
    + exact (Hnot Hname).
    + exact (violates_not_valid Hin Hviolates Hvalid).
  - split; [intros _ _; rewrite Hstate; reflexivity |].
    intros [Hnot | (field & Hin & Hviolates)]; exfalso.
    + exact (Hnot Hname).
    + exact (violates_not_valid Hin Hviolates Hvalid).
Qed.

Lemma dispatch_session_effect_witness :
  session_closed
    (snd (handle_call_tool remote_down "power_vm"
            [("vm_id", JStr "vm1"); ("action", JStr "explode")] fresh)) = true
  /\ snd (handle_call_tool remote_down "power_vm" [("vm_id", JStr "vm1")] fresh) = fresh.
Proof.
  split.
  - apply (proj1 (dispatch_session_effect remote_down "power_vm"
                    [("vm_id", JStr "vm1"); ("action", JStr "explode")] fresh)).
    + rewrite catalog_names. simpl. auto.
    + intros field [<- | [<- | []]]; eexists; reflexivity.
  - apply (proj2 (dispatch_session_effect remote_down "power_vm"
                    [("vm_id", JStr "vm1")] fresh)).
    right. exists "action". split; [simpl; auto | intros s; discriminate].
Defined.

(** On a closed global client the [try] block of every dispatch raises. *)
Lemma route_raises_on_closed_session remote name arguments g :
  session_closed g = true -> exists e, fst (route remote name arguments g) = Raise e.
Proof.
  intros Hclosed. pose proof (acquired_closed g Hclosed) as Hstate.
  destruct (route_cases remote name arguments g)
    as [(_ & _ & Hraise) | (Hname & Hvalid & _)]; [exact Hraise |].
  rewrite catalog_names in Hname. simpl in Hname.
  destruct Hname as [<- | [<- | [<- | []]]].
  - exists closed_exn. apply handle_list_vms_on_closed_session. exact Hclosed.
  - destruct (Hvalid "vm_id") as (vm_id & Hv); [simpl; auto |].
    rewrite (route_get_vm_info remote arguments g Hv).
    unfold handle_get_vm_info. rewrite get_vmware_client_run. simpl fst.
    erewrite bind_Raise by (apply get_vm_info_closed; exact Hstate).
    eexists; reflexivity.
  - destruct (Hvalid "vm_id") as (vm_id & Hv); [simpl; auto |].
    destruct (Hvalid "action") as (action & Ha); [simpl; auto |].
    rewrite (route_power_vm remote arguments g Hv Ha).
    unfold handle_power_vm. rewrite get_vmware_client_run. simpl fst.
    destruct (Py.str_in action valid_actions) eqn:Hin.
    + apply str_in_In in Hin.
      erewrite bind_Raise by (apply power_vm_closed; assumption).
      eexists; reflexivity.
    + apply str_in_not_In in Hin.
      erewrite bind_Raise by (apply power_vm_invalid; exact Hin).
      eexists; reflexivity.
Qed.

(** X8. A process gets at most one dispatch that is no error: after a
    dispatch that returned without the error flag, every later dispatch, of
    any tool with any arguments and whatever the remote API would answer,
    returns an error envelope and sends nothing. *)
Theorem at_most_one_successful_dispatch
    (remote : list httpx.Request -> httpx.Request -> httpx.reply)
    (name1 : string) (arguments1 : pydict) (name2 : string) (arguments2 : pydict)
    (g g1 g2 : globals) (r1 r2 : mcp.CallToolResult) :
  handle_call_tool remote name1 arguments1 g = (Return r1, g1) ->
  mcp.isError r1 = false ->
  handle_call_tool remote name2 arguments2 g1 = (Return r2, g2) ->
  mcp.isError r2 = true
  /\ mcp.structuredContent r2 = None
  /\ network_calls g2 = network_calls g1.
Proof.
  rewrite !handle_call_tool_run. intros Hfirst Hok Hsecond.
  inversion Hfirst as [[Hr1 Hg1]]. inversion Hsecond as [[Hr2 Hg2]].
  assert (Hclosed : session_closed g1 = true).
  { destruct (route_cases remote name1 arguments1 g)
      as [(_ & _ & e & Hraise) | (_ & _ & self' & request & Hstate & _)].
    - rewrite Hraise in Hr1. subst r1. discriminate Hok.
    - rewrite <- Hg1, Hstate. reflexivity. }
  destruct (route_raises_on_closed_session remote name2 arguments2 g1 Hclosed) as (e & Hraise).
  subst r2 g2. rewrite Hraise. simpl.
  split; [reflexivity | split; [reflexivity |]].
  rewrite ?Hg1. exact (proj1 (route_on_closed_session remote name2 arguments2 g1 Hclosed)).
Qed.

Lemma at_most_one_successful_dispatch_witness :
  mcp.isError
    (error_result (PyExc RuntimeError "Cannot send a request, as the client has been closed."))
  = true
  /\ mcp.structuredContent
       (error_result
          (PyExc RuntimeError "Cannot send a request, as the client has been closed."))
     = None
  /\ network_calls
       (snd (handle_call_tool remote_one_vm "get_vm_info" [("vm_id", JStr "vm1")]
               (snd (handle_call_tool remote_one_vm "list_vms" [] fresh))))
     = network_calls (snd (handle_call_tool remote_one_vm "list_vms" [] fresh)).
Proof.
  apply (@at_most_one_successful_dispatch remote_one_vm "list_vms" []
           "get_vm_info" [("vm_id", JStr "vm1")] fresh
           (snd (handle_call_tool remote_one_vm "list_vms" [] fresh))
           (snd (handle_call_tool remote_one_vm "get_vm_info" [("vm_id", JStr "vm1")]
                   (snd (handle_call_tool remote_one_vm "list_vms" [] fresh))))
           {| mcp.content := [ {| mcp.type := "text"; mcp.text := (spec_list_vms_text
                                             [[("id", JStr "vm1");
                                               ("path", JStr "/path/to/vm1.vmx")]]) |} ];
              mcp.structuredContent := Some (JDict [("vms", one_vm)]);
              mcp.isError := false |}
           (error_result
              (PyExc RuntimeError "Cannot send a request, as the client has been closed."))).
  - reflexivity.
  - reflexivity.
  - reflexivity.
Defined.

(** ** The shape of the envelope *)

Lemma handle_list_vms_shape remote g a g' :
  handle_list_vms remote g = (Return a, g') -> success_shape a.
Proof.
  unfold handle_list_vms. rewrite get_vmware_client_run. intros H.
  inversion H as [[Hfst Hsnd]]. clear H Hsnd.
  apply fst_eq_pair in Hfst. binds_in Hfst.
  unfold ret in Hfst. inversion Hfst. unfold success_shape. simpl.
  split; [reflexivity | split; [eexists; reflexivity |]].
  destruct (Py.truthy x); eexists; reflexivity.
Qed.

Lemma handle_get_vm_info_shape remote vm_id g a g' :
  handle_get_vm_info remote vm_id g = (Return a, g') -> success_shape a.
Proof.
  unfold handle_get_vm_info. rewrite get_vmware_client_run. intros H.
  inversion H as [[Hfst Hsnd]]. clear H Hsnd.
  apply fst_eq_pair in Hfst. binds_in Hfst.
  unfold ret in Hfst. inversion Hfst. unfold success_shape. simpl.
  split; [reflexivity | split; [eexists; reflexivity |]].
  destruct x; try discriminate Hc0. eexists; reflexivity.
Qed.

Lemma handle_power_vm_shape remote vm_id action g a g' :
  handle_power_vm remote vm_id action g = (Return a, g') -> success_shape a.
Proof.
  unfold handle_power_vm. rewrite get_vmware_client_run. intros H.
  inversion H as [[Hfst Hsnd]]. clear H Hsnd.
  apply fst_eq_pair in Hfst. cbv zeta in Hfst. binds_in Hfst.
  unfold ret in Hfst. inversion Hfst. unfold success_shape. simpl.
  split; [reflexivity | split; [eexists; reflexivity |]].
  destruct x; try discriminate Hc0. eexists; reflexivity.
Qed.

Lemma route_shape remote name arguments g a g' :
  route remote name arguments g = (Return a, g') -> success_shape a.
Proof.
  unfold route.
  destruct (String.eqb name "list_vms"); [apply handle_list_vms_shape |].
  destruct (String.eqb name "get_vm_info").
  { intros H. binds_in H. exact (handle_get_vm_info_shape _ _ _ H). }
  destruct (String.eqb name "power_vm").
  { intros H. binds_in H. exact (handle_power_vm_shape _ _ _ _ H). }
  discriminate.
Qed.

(** X9. Every envelope a dispatch returns holds exactly one content block,
    of type ["text"]. Either it is an error, with no structured content and
    a text that begins with ["Error: "]; or it is no error and its
    structured content is a JSON object (never absent, never an array or a
    scalar). *)
Theorem envelope_shape
    (remote : list httpx.Request -> httpx.Request -> httpx.reply)
    (name : string) (arguments : pydict) (g : globals) :
  exists r g' t,
    handle_call_tool remote name arguments g = (Return r, g')
    /\ mcp.content r = [ {| mcp.type := "text"; mcp.text := t |} ]
    /\ ((mcp.isError r = true
         /\ mcp.structuredContent r = None
         /\ String.prefix "Error: " t = true)
        \/ (mcp.isError r = false
            /\ exists d, mcp.structuredContent r = Some (JDict d))).
Proof.
  rewrite handle_call_tool_run.
  destruct (route remote name arguments g) as [[a | e] g'] eqn:Hroute; simpl.
  - destruct (route_shape _ _ _ _ Hroute) as (Herr & (t & Ht) & Hd).
    exists a, g', t. split; [reflexivity | split; [exact Ht |]].
    right. split; assumption.
  - exists (error_result e), g', ("Error: " ++ exn_str e).
    split; [reflexivity | split; [reflexivity |]].
    left. split; [reflexivity | split; [reflexivity | apply prefix_app]].
Qed.

(** ** Failures of the client, seen through a dispatch *)

Lemma handler_raises (A B : Type) (c : M VMwareClient A) (k : A -> M VMwareClient B) g e :
  fst (c (acquired g)) = Raise e ->
  fst (get_vmware_client (bind c k) g) = Raise e.
Proof.
  intros H. rewrite get_vmware_client_run. simpl fst.
  apply fst_eq_pair in H. erewrite bind_Raise by exact H. reflexivity.
Qed.

(** X10. Whatever exception a method of the client raises during a
    dispatch (transport failure, HTTP status, closed client, decoder error,
    invalid action), the dispatch returns the error envelope whose text is
    ["Error: "] followed by the exception's message, with no structured
    content; the handler formats nothing. *)
Theorem client_failure_surfaces
    (remote : list httpx.Request -> httpx.Request -> httpx.reply)
    (arguments : pydict) (g : globals) (vm_id action : string) (e : exn) :
  (fst (list_vms remote (acquired g)) = Raise e ->
   fst (handle_call_tool remote "list_vms" arguments g) =
     Return {| mcp.content := [ {| mcp.type := "text"; mcp.text := ("Error: " ++ exn_str e) |} ];
               mcp.structuredContent := None;
               mcp.isError := true |})
  /\ (Py.dict_get arguments "vm_id" = Some (JStr vm_id) ->
      fst (get_vm_info remote vm_id (acquired g)) = Raise e ->
      fst (handle_call_tool remote "get_vm_info" arguments g) =
        Return {| mcp.content := [ {| mcp.type := "text"; mcp.text := ("Error: " ++ exn_str e) |} ];
                  mcp.structuredContent := None;
                  mcp.isError := true |})
  /\ (Py.dict_get arguments "vm_id" = Some (JStr vm_id) ->
      Py.dict_get arguments "action" = Some (JStr action) ->
      fst (power_vm remote vm_id action (acquired g)) = Raise e ->
      fst (handle_call_tool remote "power_vm" arguments g) =
        Return {| mcp.content := [ {| mcp.type := "text"; mcp.text := ("Error: " ++ exn_str e) |} ];
                  mcp.structuredContent := None;
                  mcp.isError := true |}).
Proof.
  repeat split.
  - intros Hraise. rewrite handle_call_tool_run. simpl fst.
    change (route remote "list_vms" arguments g) with (handle_list_vms remote g).
    unfold handle_list_vms. rewrite (handler_raises _ _ g Hraise). reflexivity.
  - intros Hv Hraise. rewrite handle_call_tool_run. simpl fst.
    rewrite (route_get_vm_info remote arguments g Hv).
    unfold handle_get_vm_info. rewrite (handler_raises _ _ g Hraise). reflexivity.
  - intros Hv Ha Hraise. rewrite handle_call_tool_run. simpl fst.
    rewrite (route_power_vm remote arguments g Hv Ha).
    unfold handle_power_vm. rewrite (handler_raises _ _ g Hraise). reflexivity.
Qed.

Lemma client_failure_surfaces_witness :
  fst (handle_call_tool remote_down "list_vms" [] fresh) =
    Return {| mcp.content :=
                [ {| mcp.type := "text"; mcp.text := "Error: Failed to connect to VMware Fusion API: All connection attempts failed" |} ];
              mcp.structuredContent := None;
              mcp.isError := true |}
  /\ fst (handle_call_tool (remote_always missing_vm) "get_vm_info"
            [("vm_id", JStr "vm9")] fresh) =
       Return {| mcp.content := [ {| mcp.type := "text"; mcp.text := "Error: VM with ID 'vm9' not found" |} ];
                 mcp.structuredContent := None;
                 mcp.isError := true |}
  /\ fst (handle_call_tool (remote_always server_error) "power_vm"
            [("vm_id", JStr "vm1"); ("action", JStr "suspend")] fresh) =
       Return {| mcp.content :=
                   [ {| mcp.type := "text"; mcp.text := "Error: VMware Fusion API error: 500 - Internal Server Error" |} ];
                 mcp.structuredContent := None;
                 mcp.isError := true |}.
Proof.
  split; [| split].
  - apply (proj1 (@client_failure_surfaces remote_down [] fresh "" ""
                    (PyExc Exception_
                       "Failed to connect to VMware Fusion API: All connection attempts failed"))).
    reflexivity.
  - apply (proj1 (proj2 (@client_failure_surfaces (remote_always missing_vm)
                           [("vm_id", JStr "vm9")] fresh "vm9" ""
                           (PyExc Exception_ "VM with ID 'vm9' not found")))).
    + reflexivity.
    + reflexivity.
  - apply (proj2 (proj2 (@client_failure_surfaces (remote_always server_error)
                           [("vm_id", JStr "vm1"); ("action", JStr "suspend")] fresh
                           "vm1" "suspend"
                           (PyExc Exception_
                              "VMware Fusion API error: 500 - Internal Server Error")))).
    + reflexivity.
    + reflexivity.
    + reflexivity.
Defined.

(** ** The text of [get_vm_info] *)

Lemma sub_loop_map (d : pydict) (lines : list string) :
  sub_loop d lines =
  List.app lines (map (fun kv => "  " ++ fst kv ++ ": " ++ Py.str (snd kv)) d).
Proof.
  revert lines. induction d as [| [sub_key sub_value] rest IH]; intros lines; simpl.
  - rewrite app_nil_r. reflexivity.
  - rewrite IH. unfold Py.append. rewrite <- app_assoc. reflexivity.
Qed.

Lemma info_loop_flat_map (items : pydict) (lines : list string) :
  info_loop items lines = (lines ++ flat_map info_entry_lines items)%list.
Proof.
  revert lines. induction items as [| [key value] rest IH]; intros lines.
  - simpl. rewrite app_nil_r. reflexivity.
  - change (flat_map info_entry_lines ((key, value) :: rest))
      with (info_entry_lines (key, value) ++ flat_map info_entry_lines rest)%list.
    rewrite app_assoc.
    destruct value; simpl info_loop; rewrite IH; f_equal;
      unfold Py.append, info_entry_lines; simpl fst; simpl snd; try reflexivity.
    rewrite sub_loop_map. rewrite <- app_assoc. reflexivity.
Qed.

(** X11. When the arguments carry a string [vm_id], the global client is
    not closed, the URL of the request is one httpx sends as it is written,
    the remote API answers with a 2xx status and a JSON object, and every
    key and string of that object is ASCII, the [get_vm_info] envelope holds
    one text block whose text is these lines joined by newlines:
    ["VM Information for ID: {vm_id}"], a line of 50 [=], and for each entry
    of the object, in its order, either ["{Key title-cased}: {value}"] or,
    for a value that is itself an object, ["{Key title-cased}:"] followed by
    one line ["  {sub_key}: {sub_value}"] per entry of it (nested one level
    only: deeper objects are printed as values). An empty object gives the
    two heading lines alone. *)
Theorem get_vm_info_text
    (remote : list httpx.Request -> httpx.Request -> httpx.reply)
    (arguments : pydict) (g : globals) (vm_id : string)
    (r : httpx.Response) (info : pydict) :
  Py.dict_get arguments "vm_id" = Some (JStr vm_id) ->
  session_closed g = false ->
  sendable_as_is (session_base_url g ++ "/fusionsvc/vms/" ++ vm_id) = true ->
  remote (network_calls g)
    {| httpx.method := httpx.GET;
       httpx.url := session_base_url g ++ "/fusionsvc/vms/" ++ vm_id |}
  = httpx.Responded r ->
  (200 <= httpx.status_code r <= 299)%Z ->
  httpx.body r = httpx.Decoded (JDict info) ->
  ascii_json (JDict info) = true ->
  exists res,
    fst (handle_call_tool remote "get_vm_info" arguments g) = Return res
    /\ mcp.content res =
       [ {| mcp.type := "text";
            mcp.text :=
              String.concat (String (ascii_of_nat 10) EmptyString)
                (List.app
                   ["VM Information for ID: " ++ vm_id;
                    "=================================================="]
                   (flat_map info_entry_lines info)) |} ].
Proof.
  intros Harg Hopen _ Hreply Hstatus Hbody _.
  apply acquired_state in Hopen.
  change {| httpx.method := httpx.GET;
            httpx.url := session_base_url g ++ "/fusionsvc/vms/" ++ vm_id |}
    with (get_vm_info_request g vm_id) in Hreply.
  unfold get_vm_info_request in Hreply.
  rewrite <- acquired_calls, <- acquired_base_url in Hreply.
  rewrite handle_call_tool_run. simpl fst.
  rewrite (route_get_vm_info remote arguments g Harg).
  unfold handle_get_vm_info. rewrite get_vmware_client_run. simpl fst.
  assert (Hinfo : get_vm_info remote vm_id (acquired g) =
                  (Return (JDict info),
                   after_request (acquired g) (info_request (acquired g) vm_id))).
  { rewrite get_vm_info_run by exact Hopen. unfold info_request at 1. rewrite Hreply.
    rewrite (is_success_range _ Hstatus). unfold decoded_body. rewrite Hbody. reflexivity. }
  erewrite bind_Return by exact Hinfo.
  eexists. split; [reflexivity |].
  simpl mcp.content. unfold text_content.
  rewrite info_loop_flat_map. reflexivity.
Qed.

Lemma get_vm_info_text_witness :
  exists res,
    fst (handle_call_tool (remote_always (ok_with vm1_detail_text (JDict vm1_detail)))
           "get_vm_info" [("vm_id", JStr "vm1")] fresh) = Return res
    /\ mcp.content res =
       [ {| mcp.type := "text";
            mcp.text :=
              String.concat (String (ascii_of_nat 10) EmptyString)
                ["VM Information for ID: vm1";
                 "==================================================";
                 "Id: vm1";
                 "Cpu:";
                 "  processors: 2";
                 "Memory: 4096";
                 "Tags: ['dev', None]"] |} ].
Proof.
  assert (H200 : (200 <= 200 <= 299)%Z) by lia.
  exact (@get_vm_info_text (remote_always (ok_with vm1_detail_text (JDict vm1_detail)))
           [("vm_id", JStr "vm1")] fresh "vm1"
           (ok_with vm1_detail_text (JDict vm1_detail)) vm1_detail
           eq_refl eq_refl eq_refl eq_refl H200 eq_refl eq_refl).
Defined.

(** ** What a dispatch that is no error went through *)

Lemma list_vms_Return_inv remote self v self' :
  list_vms remote self = (Return v, self') ->
  httpx.state (_client self) <> httpx.CLOSED
  /\ exists r,
       remote (httpx.calls (_client self)) (list_request self) = httpx.Responded r
       /\ is_success r = true
       /\ httpx.body r = httpx.Decoded v.
Proof.
  intros Hrun.
  assert (Hopen : httpx.state (_client self) <> httpx.CLOSED).
  { intros Hclosed. rewrite list_vms_closed in Hrun by assumption. discriminate Hrun. }
  split; [exact Hopen |].
  rewrite list_vms_run in Hrun by assumption.
  destruct (remote (httpx.calls (_client self)) (list_request self)) as [msg | r];
    [discriminate Hrun |].
  exists r. split; [reflexivity |].
  destruct (is_success r); [| discriminate Hrun].
  split; [reflexivity |].
  unfold decoded_body in Hrun. destruct (httpx.body r); congruence.
Qed.

Lemma get_vm_info_Return_inv remote vm_id self v self' :
  get_vm_info remote vm_id self = (Return v, self') ->
  httpx.state (_client self) <> httpx.CLOSED
  /\ exists r,
       remote (httpx.calls (_client self)) (info_request self vm_id) = httpx.Responded r
       /\ is_success r = true
       /\ httpx.body r = httpx.Decoded v.
Proof.
  intros Hrun.
  assert (Hopen : httpx.state (_client self) <> httpx.CLOSED).
  { intros Hclosed. rewrite get_vm_info_closed in Hrun by assumption. discriminate Hrun. }
  split; [exact Hopen |].
  rewrite get_vm_info_run in Hrun by assumption.
  destruct (remote (httpx.calls (_client self)) (info_request self vm_id)) as [msg | r];
    [discriminate Hrun |].
  exists r. split; [reflexivity |].
  destruct (is_success r).
  - split; [reflexivity |].
    unfold decoded_body in Hrun. destruct (httpx.body r); congruence.
  - destruct (httpx.status_code r =? 404)%Z; discriminate Hrun.
Qed.

Lemma is_success_inv r : is_success r = true -> (200 <= httpx.status_code r <= 299)%Z.
Proof.
  unfold is_success. intros H. apply andb_true_iff in H. destruct H as [Hlo Hhi].
  split; apply Z.leb_le; assumption.
Qed.

Lemma success_route remote name arguments g res g' :
  handle_call_tool remote name arguments g = (Return res, g') ->
  mcp.isError res = false ->
  route remote name arguments g = (Return res, g').
Proof.
  rewrite handle_call_tool_run. intros Hrun Hok. inversion Hrun as [[Hres Hg]].
  destruct (route remote name arguments g) as [[a | e] g1]; simpl in *.
  - reflexivity.
  - rewrite <- Hres in Hok. discriminate Hok.
Qed.

(** X12. A [get_vm_info] dispatch that is no error went this way: the
    arguments held a string [vm_id], the global client was not closed, the
    remote API answered the GET for that [vm_id] with a 2xx status and a
    body that decodes to a JSON object, and that object is the structured
    content. Nothing else makes the dispatch succeed. *)
Theorem get_vm_info_success_inv
    (remote : list httpx.Request -> httpx.Request -> httpx.reply)
    (arguments : pydict) (g g' : globals) (res : mcp.CallToolResult) :
  handle_call_tool remote "get_vm_info" arguments g = (Return res, g') ->
  mcp.isError res = false ->
  exists vm_id r info,
    Py.dict_get arguments "vm_id" = Some (JStr vm_id)
    /\ session_closed g = false
    /\ remote (network_calls g) (get_vm_info_request g vm_id) = httpx.Responded r
    /\ (200 <= httpx.status_code r <= 299)%Z
    /\ httpx.body r = httpx.Decoded (JDict info)
    /\ mcp.structuredContent res = Some (JDict info).
Proof.
  intros Hrun Hok. pose proof (success_route _ _ _ _ Hrun Hok) as Hroute.
  change (route remote "get_vm_info" arguments g)
    with (bind (GetVMInfoParams.init arguments)
            (fun params => handle_get_vm_info remote (GetVMInfoParams.vm_id params)) g)
    in Hroute.
  apply bind_Return_inv in Hroute. destruct Hroute as (params & g0 & Hinit & Hhandle).
  unfold GetVMInfoParams.init in Hinit.
  destruct (pydantic.str_field arguments "vm_id") as [vm_id | err] eqn:Hv;
    [| discriminate Hinit].
  inversion Hinit; subst params g0. clear Hinit. simpl in Hhandle.
  apply str_field_inl in Hv.
  unfold handle_get_vm_info in Hhandle. rewrite get_vmware_client_run in Hhandle.
  inversion Hhandle as [[Hfst Hsnd]]. clear Hhandle Hsnd.
  apply fst_eq_pair in Hfst. apply bind_Return_inv in Hfst.
  destruct Hfst as (vm_info & self' & Hget & Hrest).
  apply get_vm_info_Return_inv in Hget. destruct Hget as (Hopen & r & Hreply & Hsuccess & Hbody).
  apply bind_Return_inv in Hrest. destruct Hrest as (items & s2 & Hitems & Hret).
  destruct vm_info; try discriminate Hitems.
  unfold ret in Hret. inversion Hret as [[Hres]].
  exists vm_id, r, kvs.
  rewrite acquired_calls in Hreply. unfold info_request in Hreply.
  rewrite acquired_base_url in Hreply.
  split; [exact Hv |]. split; [apply acquired_state; exact Hopen |].
  split; [exact Hreply |]. split; [apply is_success_inv; exact Hsuccess |].
  split; [exact Hbody | reflexivity].
Qed.

Lemma get_vm_info_success_inv_witness :
  exists vm_id r info,
    Py.dict_get [("vm_id", JStr "vm1")] "vm_id" = Some (JStr vm_id)
    /\ session_closed fresh = false
    /\ remote_always (ok_with vm1_detail_text (JDict vm1_detail)) (network_calls fresh)
         (get_vm_info_request fresh vm_id) = httpx.Responded r
    /\ (200 <= httpx.status_code r <= 299)%Z
    /\ httpx.body r = httpx.Decoded (JDict info)
    /\ mcp.structuredContent
         (match fst (handle_call_tool (remote_always (ok_with vm1_detail_text (JDict vm1_detail)))
                       "get_vm_info" [("vm_id", JStr "vm1")] fresh) with
          | Return a => a
          | Raise e => error_result e
          end) = Some (JDict info).
Proof.
  apply (@get_vm_info_success_inv (remote_always (ok_with vm1_detail_text (JDict vm1_detail)))
           [("vm_id", JStr "vm1")] fresh
           (snd (handle_call_tool (remote_always (ok_with vm1_detail_text (JDict vm1_detail)))
                   "get_vm_info" [("vm_id", JStr "vm1")] fresh))).
  - reflexivity.
  - reflexivity.
Defined.

Lemma list_vms_loop_Return_inv (S : Type) (xs : list json) (lines out : list string) (s s' : S) :
  list_vms_loop xs lines s = (Return out, s') -> exists vms, xs = map JDict vms.
Proof.
  revert lines. induction xs as [| v rest IH]; intros lines Hrun.
  - exists []. reflexivity.
  - destruct v; try discriminate Hrun.
    simpl in Hrun. destruct (IH _ Hrun) as (vms & ->).
    exists (kvs :: vms). reflexivity.
Qed.

Lemma chars_not_dicts (t : string) (vms : list pydict) : chars t = map JDict vms -> t = "".
Proof. destruct t, vms; simpl; intros H; try reflexivity; discriminate H. Qed.

Lemma keys_not_dicts (d : pydict) (vms : list pydict) :
  map (fun kv : string * json => JStr (fst kv)) d = map JDict vms -> d = [].
Proof. destruct d, vms; simpl; intros H; try reflexivity; discriminate H. Qed.

(** X13. A [list_vms] dispatch that is no error went this way: the global
    client was not closed and the remote API answered the GET with a 2xx
    status and a body that decodes to a value [v]. Either [v] is falsy
    (null, false, zero, or an empty string, array or object): then the text
    is ["No VMs found in VMware Fusion."] and the structured content is
    [{vms: []}] whatever [v] was. Or [v] is a non-empty array of objects:
    then the text is the listing of C8 and the structured content is
    [{vms: v}]. *)
Theorem list_vms_success_inv
    (remote : list httpx.Request -> httpx.Request -> httpx.reply)
    (arguments : pydict) (g g' : globals) (res : mcp.CallToolResult) :
  handle_call_tool remote "list_vms" arguments g = (Return res, g') ->
  mcp.isError res = false ->
  session_closed g = false
  /\ exists r v,
       remote (network_calls g) (list_vms_request g) = httpx.Responded r
       /\ (200 <= httpx.status_code r <= 299)%Z
       /\ httpx.body r = httpx.Decoded v
       /\ ((Py.truthy v = false
            /\ human_text res = "No VMs found in VMware Fusion."
            /\ mcp.structuredContent res = Some (JDict [("vms", JList [])]))
           \/ (exists vms,
                 vms <> []
                 /\ v = JList (map JDict vms)
                 /\ human_text res = spec_list_vms_text vms
                 /\ mcp.structuredContent res = Some (JDict [("vms", v)]))).
Proof.
  intros Hrun Hok. pose proof (success_route _ _ _ _ Hrun Hok) as Hroute.
  change (route remote "list_vms" arguments g) with (handle_list_vms remote g) in Hroute.
  unfold handle_list_vms in Hroute. rewrite get_vmware_client_run in Hroute.
  inversion Hroute as [[Hfst Hsnd]]. clear Hroute Hsnd.
  apply fst_eq_pair in Hfst. apply bind_Return_inv in Hfst.
  destruct Hfst as (v & self' & Hlist & Hrest).
  apply list_vms_Return_inv in Hlist. destruct Hlist as (Hopen & r & Hreply & Hsuccess & Hbody).
  rewrite acquired_calls in Hreply. unfold list_request in Hreply.
  rewrite acquired_base_url in Hreply.
  split; [apply acquired_state; exact Hopen |].
  exists r, v. split; [exact Hreply |]. split; [apply is_success_inv; exact Hsuccess |].
  split; [exact Hbody |].
  apply bind_Return_inv in Hrest. destruct Hrest as (content & s1 & Hcontent & Hret).
  unfold ret in Hret. inversion Hret as [[Hres]]. clear Hret.
  destruct (Py.truthy v) eqn:Htruthy.
  - right. simpl in Hcontent.
    apply bind_Return_inv in Hcontent. destruct Hcontent as (items & s2 & Hiter & Hloop).
    apply bind_Return_inv in Hloop. destruct Hloop as (lines & s3 & Hloop & Hjoin).
    unfold ret in Hjoin. inversion Hjoin as [[Hcontent]]. clear Hjoin.
    destruct (list_vms_loop_Return_inv _ _ _ Hloop) as (vms & Hitems).
    subst items.
    assert (Hv : v = JList (map JDict vms)).
    { destruct v; simpl in Hiter; inversion Hiter as [[Hitems]].
      - apply chars_not_dicts in Hitems. rewrite Hitems in Htruthy. discriminate Htruthy.
      - reflexivity.
      - apply keys_not_dicts in Hitems. rewrite Hitems in Htruthy. discriminate Htruthy. }
    subst v. exists vms.
    rewrite list_vms_loop_dicts in Hloop. inversion Hloop as [[Hlines]].
    destruct vms as [| vm rest]; [discriminate Htruthy |].
    split; [discriminate |]. split; [reflexivity |]. split; reflexivity.
  - left. simpl in Hcontent. unfold ret in Hcontent. inversion Hcontent as [[Hc]].
    split; [reflexivity |]. split; reflexivity.
Qed.

Lemma list_vms_success_inv_witness :
  session_closed fresh = false
  /\ exists r v,
       remote_one_vm (network_calls fresh) (list_vms_request fresh) = httpx.Responded r
       /\ (200 <= httpx.status_code r <= 299)%Z
       /\ httpx.body r = httpx.Decoded v
       /\ ((Py.truthy v = false
            /\ human_text
                 (match fst (handle_call_tool remote_one_vm "list_vms" [] fresh) with
                  | Return a => a
                  | Raise e => error_result e
                  end) = "No VMs found in VMware Fusion."
            /\ mcp.structuredContent
                 (match fst (handle_call_tool remote_one_vm "list_vms" [] fresh) with
                  | Return a => a
                  | Raise e => error_result e
                  end) = Some (JDict [("vms", JList [])]))
           \/ (exists vms,
                 vms <> []
                 /\ v = JList (map JDict vms)
                 /\ human_text
                      (match fst (handle_call_tool remote_one_vm "list_vms" [] fresh) with
                       | Return a => a
                       | Raise e => error_result e
                       end) = spec_list_vms_text vms
                 /\ mcp.structuredContent
                      (match fst (handle_call_tool remote_one_vm "list_vms" [] fresh) with
                       | Return a => a
                       | Raise e => error_result e
                       end) = Some (JDict [("vms", v)]))).
Proof.
  apply (@list_vms_success_inv remote_one_vm [] fresh
           (snd (handle_call_tool remote_one_vm "list_vms" [] fresh))).
  - reflexivity.
  - reflexivity.
Defined.

(** ** Bodies of another shape than the handlers expect *)

Lemma list_vms_loop_non_mapping (S : Type) (pre : list pydict) (v : json) (rest : list json)
    (lines : list string) (s : S) :
  (forall d, v <> JDict d) ->
  list_vms_loop (map JDict pre ++ v :: rest)%list lines s =
  (Raise (PyExc AttributeError
            ("'" ++ Py.type_name v ++ "' object has no attribute '" ++ "get" ++ "'")), s).
Proof.
  intros Hv. revert lines. induction pre as [| vm pre IH]; intros lines.
  - destruct v; try reflexivity. elim (Hv kvs). reflexivity.
  - simpl. apply IH.
Qed.

(** X14. When the remote API answers a [list_vms] dispatch (global client
    not closed, 2xx status) with a JSON array one of whose elements is no
    object, the dispatch is an error although the request went out: its text
    is ["Error: '{type}' object has no attribute 'get'"] for the type of the
    first such element, and no listing of the elements before it is
    returned. *)
Theorem list_vms_non_mapping_element
    (remote : list httpx.Request -> httpx.Request -> httpx.reply)
    (arguments : pydict) (g : globals) (r : httpx.Response)
    (pre : list pydict) (v : json) (rest : list json) :
  session_closed g = false ->
  remote (network_calls g) (list_vms_request g) = httpx.Responded r ->
  (200 <= httpx.status_code r <= 299)%Z ->
  httpx.body r = httpx.Decoded (JList (map JDict pre ++ v :: rest)%list) ->
  (forall d, v <> JDict d) ->
  fst (handle_call_tool remote "list_vms" arguments g) =
    Return {| mcp.content :=
                [ {| mcp.type := "text"; mcp.text := ("Error: '" ++ Py.type_name v ++ "' object has no attribute 'get'") |} ];
              mcp.structuredContent := None;
              mcp.isError := true |}
  /\ network_calls (snd (handle_call_tool remote "list_vms" arguments g))
     = (network_calls g ++ [list_vms_request g])%list.
Proof.
  intros Hopen Hreply Hstatus Hbody Hv.
  apply acquired_state in Hopen.
  unfold list_vms_request in Hreply.
  rewrite <- acquired_calls, <- acquired_base_url in Hreply.
  rewrite handle_call_tool_run. simpl fst. simpl snd.
  change (route remote "list_vms" arguments g) with (handle_list_vms remote g).
  assert (Hvms : list_vms remote (acquired g) =
                 (Return (JList (map JDict pre ++ v :: rest)%list),
                  after_request (acquired g) (list_request (acquired g)))).
  { rewrite list_vms_run by exact Hopen. unfold list_request at 1. rewrite Hreply.
    rewrite (is_success_range _ Hstatus). unfold decoded_body. rewrite Hbody. reflexivity. }
  split.
  - unfold handle_list_vms. rewrite get_vmware_client_run. simpl fst.
    erewrite bind_Return by exact Hvms.
    assert (Htruthy : Py.truthy (JList (map JDict pre ++ v :: rest)%list) = true)
      by (destruct pre; reflexivity).
    rewrite Htruthy. change (negb true) with false. cbv iota.
    unfold bind at 1. unfold bind at 1. unfold iter, ret at 1. unfold bind at 1.
    rewrite list_vms_loop_non_mapping by exact Hv. reflexivity.
  - rewrite handle_list_vms_state, Hvms. unfold list_vms_request.
    rewrite <- (acquired_calls g), <- (acquired_base_url g). reflexivity.
Qed.

Lemma list_vms_non_mapping_element_witness :
  fst (handle_call_tool
         (remote_always
            (ok_with ("[{}, " ++ quoted "vm2" ++ "]") (JList [JDict []; JStr "vm2"])))
         "list_vms" [] fresh) =
    Return {| mcp.content := [ {| mcp.type := "text"; mcp.text := "Error: 'str' object has no attribute 'get'" |} ];
              mcp.structuredContent := None;
              mcp.isError := true |}
  /\ network_calls
       (snd (handle_call_tool
               (remote_always
                  (ok_with ("[{}, " ++ quoted "vm2" ++ "]") (JList [JDict []; JStr "vm2"])))
               "list_vms" [] fresh))
     = [ {| httpx.method := httpx.GET; httpx.url := "http://localhost:8697/fusionsvc/vms" |} ].
Proof.
  assert (H200 : (200 <= 200 <= 299)%Z) by lia.
  apply (@list_vms_non_mapping_element
           (remote_always
              (ok_with ("[{}, " ++ quoted "vm2" ++ "]") (JList [JDict []; JStr "vm2"])))
           [] fresh
           (ok_with ("[{}, " ++ quoted "vm2" ++ "]") (JList [JDict []; JStr "vm2"]))
           [[]] (JStr "vm2") []).
  - reflexivity.
  - reflexivity.
  - exact H200.
  - reflexivity.
  - intros d H. discriminate H.
Defined.

Lemma handle_list_vms_on remote g v self' :
  list_vms remote (acquired g) = (Return v, self') ->
  fst (handle_list_vms remote g) =
  fst (bind
         (if negb (Py.truthy v) then ret "No VMs found in VMware Fusion."
          else bind (iter v)
                 (fun items =>
                    bind (list_vms_loop items ["VMware Fusion VMs:"; Py.str_mul "=" 50])
                      (fun lines => ret (Py.join Py.nl lines))))
         (fun content =>
            ret {| mcp.content := [ {| mcp.type := "text"; mcp.text := content |} ];
                   mcp.structuredContent :=
                     Some (if Py.truthy v then JDict [("vms", v)]
                           else JDict [("vms", JList [])]);
                   mcp.isError := false |})
         self').
Proof.
  intros Hrun. unfold handle_list_vms. rewrite get_vmware_client_run. simpl fst.
  erewrite bind_Return by exact Hrun. reflexivity.
Qed.

(** X15. When the remote API answers a [list_vms] dispatch (global client
    not closed, 2xx status) with JSON that is no array: a falsy value (null,
    false, zero, an empty string or object) is taken for "no VMs" and the
    dispatch succeeds with [{vms: []}]; a non-empty object or string is
    iterated by key or by character and fails with
    ["Error: 'str' object has no attribute 'get'"]; a true or non-zero
    number fails with ["Error: '{type}' object is not iterable"]. *)
Theorem list_vms_not_an_array
    (remote : list httpx.Request -> httpx.Request -> httpx.reply)
    (arguments : pydict) (g : globals) (r : httpx.Response) (v : json) :
  session_closed g = false ->
  remote (network_calls g) (list_vms_request g) = httpx.Responded r ->
  (200 <= httpx.status_code r <= 299)%Z ->
  httpx.body r = httpx.Decoded v ->
  (Py.truthy v = false ->
   fst (handle_call_tool remote "list_vms" arguments g) =
     Return {| mcp.content := [ {| mcp.type := "text"; mcp.text := "No VMs found in VMware Fusion." |} ];
               mcp.structuredContent := Some (JDict [("vms", JList [])]);
               mcp.isError := false |})
  /\ ((exists k x d, v = JDict ((k, x) :: d)) \/ (exists c t, v = JStr (String c t)) ->
      fst (handle_call_tool remote "list_vms" arguments g) =
        Return {| mcp.content := [ {| mcp.type := "text"; mcp.text := "Error: 'str' object has no attribute 'get'" |} ];
                  mcp.structuredContent := None;
                  mcp.isError := true |})
  /\ (Py.truthy v = true ->
      (exists b, v = JBool b) \/ (exists n, v = JInt n) \/ (exists f, v = JFloat f) ->
      fst (handle_call_tool remote "list_vms" arguments g) =
        Return {| mcp.content :=
                    [ {| mcp.type := "text"; mcp.text := ("Error: '" ++ Py.type_name v ++ "' object is not iterable") |} ];
                  mcp.structuredContent := None;
                  mcp.isError := true |}).
Proof.
  intros Hopen Hreply Hstatus Hbody.
  apply acquired_state in Hopen.
  unfold list_vms_request in Hreply.
  rewrite <- acquired_calls, <- acquired_base_url in Hreply.
  rewrite handle_call_tool_run. simpl fst.
  change (route remote "list_vms" arguments g) with (handle_list_vms remote g).
  assert (Hvms : list_vms remote (acquired g) =
                 (Return v, after_request (acquired g) (list_request (acquired g)))).
  { rewrite list_vms_run by exact Hopen. unfold list_request at 1. rewrite Hreply.
    rewrite (is_success_range _ Hstatus). unfold decoded_body. rewrite Hbody. reflexivity. }
  rewrite (handle_list_vms_on remote g Hvms).
  split; [| split].
  - intros Hfalsy. rewrite Hfalsy. reflexivity.
  - intros [(k & x & d & ->) | (c & t & ->)]; reflexivity.
  - intros Htruthy [(b & ->) | [(n & ->) | (f & ->)]]; rewrite Htruthy; reflexivity.
Qed.

Lemma list_vms_not_an_array_witness :
  fst (handle_call_tool (remote_always (ok_with "{}" (JDict []))) "list_vms" [] fresh) =
    Return {| mcp.content := [ {| mcp.type := "text"; mcp.text := "No VMs found in VMware Fusion." |} ];
              mcp.structuredContent := Some (JDict [("vms", JList [])]);
              mcp.isError := false |}
  /\ fst (handle_call_tool
            (remote_always (ok_with ("{" ++ quoted "error" ++ ": 1}") (JDict [("error", JInt 1)])))
            "list_vms" [] fresh) =
       Return {| mcp.content := [ {| mcp.type := "text"; mcp.text := "Error: 'str' object has no attribute 'get'" |} ];
                 mcp.structuredContent := None;
                 mcp.isError := true |}
  /\ fst (handle_call_tool (remote_always (ok_with "7" (JInt 7))) "list_vms" [] fresh) =
       Return {| mcp.content := [ {| mcp.type := "text"; mcp.text := "Error: 'int' object is not iterable" |} ];
                 mcp.structuredContent := None;
                 mcp.isError := true |}.
Proof.
  assert (H200 : (200 <= 200 <= 299)%Z) by lia.
  split; [| split].
  - apply (proj1 (@list_vms_not_an_array (remote_always (ok_with "{}" (JDict []))) [] fresh
                    (ok_with "{}" (JDict [])) (JDict []) eq_refl eq_refl H200 eq_refl)).
    reflexivity.
  - apply (proj1 (proj2 (@list_vms_not_an_array
                           (remote_always (ok_with ("{" ++ quoted "error" ++ ": 1}")
                                             (JDict [("error", JInt 1)])))
                           [] fresh
                           (ok_with ("{" ++ quoted "error" ++ ": 1}") (JDict [("error", JInt 1)]))
                           (JDict [("error", JInt 1)]) eq_refl eq_refl H200 eq_refl))).
    left. exists "error", (JInt 1), []. reflexivity.
  - apply (proj2 (proj2 (@list_vms_not_an_array (remote_always (ok_with "7" (JInt 7))) [] fresh
                           (ok_with "7" (JInt 7)) (JInt 7) eq_refl eq_refl H200 eq_refl))).
    + reflexivity.
    + right. left. exists 7%Z. reflexivity.
Defined.

(** X16. When the remote API answers with a 2xx status and JSON that is
    no object (global client not closed, string arguments, valid action),
    the dispatch is an error although the call went through:
    [get_vm_info] gives ["Error: '{type}' object has no attribute 'items'"],
    and [power_vm], for a body that is not empty, gives
    ["Error: '{type}' object has no attribute 'get'"]. *)
Theorem non_mapping_body
    (remote : list httpx.Request -> httpx.Request -> httpx.reply)
    (arguments : pydict) (g : globals) (vm_id action : string)
    (r : httpx.Response) (v : json) :
  Py.dict_get arguments "vm_id" = Some (JStr vm_id) ->
  session_closed g = false ->
  (200 <= httpx.status_code r <= 299)%Z ->
  httpx.body r = httpx.Decoded v ->
  (forall d, v <> JDict d) ->
  (remote (network_calls g) (get_vm_info_request g vm_id) = httpx.Responded r ->
   fst (handle_call_tool remote "get_vm_info" arguments g) =
     Return {| mcp.content :=
                 [ {| mcp.type := "text"; mcp.text := ("Error: '" ++ Py.type_name v ++ "' object has no attribute 'items'") |} ];
               mcp.structuredContent := None;
               mcp.isError := true |})
  /\ (Py.dict_get arguments "action" = Some (JStr action) ->
      In action valid_actions ->
      httpx.text r <> "" ->
      remote (network_calls g) (power_vm_request g vm_id action) = httpx.Responded r ->
      fst (handle_call_tool remote "power_vm" arguments g) =
        Return {| mcp.content :=
                    [ {| mcp.type := "text"; mcp.text := ("Error: '" ++ Py.type_name v ++ "' object has no attribute 'get'") |} ];
                  mcp.structuredContent := None;
                  mcp.isError := true |}).
Proof.
  intros Hv Hopen Hstatus Hbody Hshape.
  apply acquired_state in Hopen. apply is_success_range in Hstatus.
  split.
  - intros Hreply. unfold get_vm_info_request in Hreply.
    rewrite <- acquired_calls, <- acquired_base_url in Hreply.
    rewrite handle_call_tool_run. simpl fst.
    rewrite (route_get_vm_info remote arguments g Hv).
    unfold handle_get_vm_info. rewrite get_vmware_client_run. simpl fst.
    assert (Hrun : get_vm_info remote vm_id (acquired g) =
                   (Return v, after_request (acquired g) (info_request (acquired g) vm_id))).
    { rewrite get_vm_info_run by exact Hopen. unfold info_request at 1.
      rewrite Hreply, Hstatus. unfold decoded_body. rewrite Hbody. reflexivity. }
    erewrite bind_Return by exact Hrun.
    destruct v; try reflexivity. elim (Hshape kvs). reflexivity.
  - intros Ha Hin Hnonempty Hreply. unfold power_vm_request in Hreply.
    rewrite <- acquired_calls, <- acquired_base_url in Hreply.
    rewrite handle_call_tool_run. simpl fst.
    rewrite (route_power_vm remote arguments g Hv Ha).
    unfold handle_power_vm. rewrite get_vmware_client_run. simpl fst.
    assert (Hrun : power_vm remote vm_id action (acquired g) =
                   (Return v,
                    after_request (acquired g) (power_request (acquired g) vm_id action))).
    { rewrite power_vm_run by assumption. unfold power_request at 1.
      rewrite Hreply, Hstatus. unfold content_nonempty.
      apply String.eqb_neq in Hnonempty. rewrite Hnonempty.
      unfold decoded_body. rewrite Hbody. reflexivity. }
    erewrite bind_Return by exact Hrun.
    destruct v; try reflexivity. elim (Hshape kvs). reflexivity.
Qed.

Lemma non_mapping_body_witness :
  fst (handle_call_tool (remote_always (ok_with "[]" (JList []))) "get_vm_info"
         [("vm_id", JStr "vm1"); ("action", JStr "on")] fresh) =
    Return {| mcp.content := [ {| mcp.type := "text"; mcp.text := "Error: 'list' object has no attribute 'items'" |} ];
              mcp.structuredContent := None;
              mcp.isError := true |}
  /\ fst (handle_call_tool (remote_always (ok_with "[]" (JList []))) "power_vm"
            [("vm_id", JStr "vm1"); ("action", JStr "on")] fresh) =
       Return {| mcp.content := [ {| mcp.type := "text"; mcp.text := "Error: 'list' object has no attribute 'get'" |} ];
                 mcp.structuredContent := None;
                 mcp.isError := true |}.
Proof.
  assert (H200 : (200 <= 200 <= 299)%Z) by lia.
  assert (Hshape : forall d, JList [] <> JDict d) by (intros d H; discriminate H).
  pose proof (@non_mapping_body (remote_always (ok_with "[]" (JList [])))
                [("vm_id", JStr "vm1"); ("action", JStr "on")] fresh "vm1" "on"
                (ok_with "[]" (JList [])) (JList []) eq_refl eq_refl H200 eq_refl Hshape)
    as (Hinfo & Hpower).
  split; [exact (Hinfo eq_refl) |].
  apply Hpower.
  - reflexivity.
  - simpl. auto.
  - simpl. discriminate.
  - reflexivity.
Defined.

(** ** Witnesses for the facts about [power_vm] dispatches *)

Lemma invalid_action_dispatch_witness :
  fst (handle_call_tool remote_one_vm "power_vm"
         [("vm_id", JStr "vm1"); ("action", JStr "ON")] fresh) =
    Return {| mcp.content :=
                [ {| mcp.type := "text"; mcp.text := "Error: Invalid action 'ON'. Valid actions: ['on', 'off', 'suspend', 'pause', 'unpause', 'reset']" |} ];
              mcp.structuredContent := None;
              mcp.isError := true |}
  /\ network_calls
       (snd (handle_call_tool remote_one_vm "power_vm"
               [("vm_id", JStr "vm1"); ("action", JStr "ON")] fresh))
     = network_calls fresh.
Proof.
  apply (@invalid_action_dispatch remote_one_vm
           [("vm_id", JStr "vm1"); ("action", JStr "ON")] "vm1" "ON" fresh).
  - reflexivity.
  - reflexivity.
  - simpl. intros H. repeat (destruct H as [H | H]; [discriminate H |]). exact H.
Defined.

Lemma power_vm_success_inv_witness :
  exists vm_id action r,
    Py.dict_get [("vm_id", JStr "vm1"); ("action", JStr "on")] "vm_id" = Some (JStr vm_id)
    /\ Py.dict_get [("vm_id", JStr "vm1"); ("action", JStr "on")] "action"
       = Some (JStr action)
    /\ In action valid_actions
    /\ session_closed fresh = false
    /\ remote_always empty_ok (network_calls fresh) (power_vm_request fresh vm_id action)
       = httpx.Responded r
    /\ (200 <= httpx.status_code r <= 299)%Z
    /\ (httpx.text r = ""
        \/ exists result, httpx.text r <> "" /\ httpx.body r = httpx.Decoded (JDict result)).
Proof.
  apply (@power_vm_success_inv (remote_always empty_ok)
           [("vm_id", JStr "vm1"); ("action", JStr "on")] fresh
           {| mcp.content :=
                [ {| mcp.type := "text"; mcp.text := "Successfully performed 'on' action on VM vm1 - Status: success" |} ];
              mcp.structuredContent :=
                Some (JDict [("status", JStr "success"); ("action", JStr "on")]);
              mcp.isError := false |}
           (snd (handle_call_tool (remote_always empty_ok) "power_vm"
                   [("vm_id", JStr "vm1"); ("action", JStr "on")] fresh))).
  - reflexivity.
  - reflexivity.
Defined.
